(** * SignNow Node SDK: request construction and callback discipline

    A shallow embedding of the OAuth2 and User endpoint wrappers
    ([lib/oauth2], [lib/user/index.js]) and of the argument handling of
    [bin/remove-document], with the properties the specification states
    about them.  The helpers the wrappers import from [lib/common]
    ([buildRequestOptions], [responseHandler], [errorHandler]) are
    modelled from the specification of the request builder and of the
    response normaliser.

    Conventions.
    - A JavaScript string is carried by its UTF-8 encoding, one [ascii]
      per byte.  [Buffer.byteLength] is then [String.length], and
      [querystring.escape], [JSON.stringify] and
      [Buffer.from(..).toString('base64')] act on those bytes.
    - A plain object whose property order matters (the token payloads
      handed to [querystring.stringify]) is an association list in
      property enumeration order; the header object of a request, whose
      order is immaterial, is a [gmap].
    - The asynchronous calls are sequentialised: a function that returns
      nothing and acts on the outside world is a transformer of the
      [World], the trace of requests put on the wire and of invocations
      of the callback the caller handed in. *)

From Stdlib Require Import ZArith NArith Ascii String List Bool Lia.
From Stdlib Require Import Numbers.DecimalString.
From stdpp Require Import base option list strings gmap.

Local Open Scope string_scope.
Local Open Scope list_scope.

(** ** Strings as byte sequences *)

Module Str.

Fixpoint starts_with (pat s : string) : bool :=
  match pat, s with
  | EmptyString, _ => true
  | String _ _, EmptyString => false
  | String a pat', String b s' => Ascii.eqb a b && starts_with pat' s'
  end.

Fixpoint skip (n : nat) (s : string) : string :=
  match n, s with
  | O, _ => s
  | S _, EmptyString => EmptyString
  | S n', String _ s' => skip n' s'
  end.

(** [String.prototype.replace] with a string pattern and a replacement
    free of [$] patterns: the leftmost occurrence only. *)
Fixpoint replace (pat rep s : string) : string :=
  if starts_with pat s then rep +:+ skip (String.length pat) s
  else match s with
       | EmptyString => EmptyString
       | String c s' => String c (replace pat rep s')
       end.

(** Number of positions of [s] at which [pat] occurs. *)
Fixpoint occurrences (pat s : string) : nat :=
  (if starts_with pat s then 1 else 0) +
  match s with
  | EmptyString => 0
  | String _ s' => occurrences pat s'
  end.

Fixpoint join (sep : string) (l : list string) : string :=
  match l with
  | [] => ""
  | [x] => x
  | x :: l' => x +:+ sep +:+ join sep l'
  end.

Definition bytes (s : string) : list N :=
  List.map N_of_ascii (list_ascii_of_string s).


(** No byte of [s] is a control character. *)
Fixpoint printable (s : string) : bool :=
  match s with
  | EmptyString => true
  | String c s' => (32 <=? N_of_ascii c)%N && printable s'
  end.


(** The pieces of [s] between the occurrences of the separator
    character, in order: for a form body, its fields. *)
Fixpoint split (sep : ascii) (s : string) : list string :=
  match s with
  | EmptyString => [EmptyString]
  | String c s' =>
      if Ascii.eqb c sep then EmptyString :: split sep s'
      else match split sep s' with
           | [] => [String c EmptyString]
           | f :: fs => String c f :: fs
           end
  end.

End Str.

(** ** [querystring.escape] and [querystring.stringify] *)

Module QueryString.

Definition in_range (lo hi c : ascii) : bool :=
  (N_of_ascii lo <=? N_of_ascii c)%N && (N_of_ascii c <=? N_of_ascii hi)%N.

(** The characters [querystring.escape] lets through:
    [A-Z a-z 0-9 - _ . ! ~ * ' ( )]. *)
Definition unreserved (c : ascii) : bool :=
  in_range "A" "Z" c || in_range "a" "z" c || in_range "0" "9" c
  || existsb (Ascii.eqb c) ["-"; "_"; "."; "!"; "~"; "*"; "'"; "("; ")"]%char.

Definition hex_digit (n : N) : ascii :=
  if (n <? 10)%N then ascii_of_N (48 + n) else ascii_of_N (55 + n).

Definition percent (c : ascii) : string :=
  let n := N_of_ascii c in
  String "%" (String (hex_digit (n / 16)) (String (hex_digit (n mod 16)) "")).

Fixpoint escape (s : string) : string :=
  match s with
  | EmptyString => EmptyString
  | String c s' =>
      if unreserved c then String c (escape s') else percent c +:+ escape s'
  end.

End QueryString.

(** ** Plain objects with ordered properties *)

(** The primitive values a payload holds.  [JSNumber z] is an integral
    Number below [10^21] in magnitude, whose string conversion is its
    plain decimal numeral. *)
Inductive JSValue :=
| JSString (s : string)
| JSNumber (z : Z)
| JSBoolean (b : bool)
| JSNull
| JSUndefined.

(** Own enumerable string-keyed properties, in enumeration order. *)
Definition JSObject := list (string * JSValue).

Module Obj.

Definition digit (c : ascii) : option N :=
  if QueryString.in_range "0" "9" c then Some (N_of_ascii c - 48)%N else None.

Fixpoint decimal (acc : N) (s : string) : option N :=
  match s with
  | EmptyString => Some acc
  | String c s' => d ← digit c; decimal (10 * acc + d)%N s'
  end.

(** A property name that is an array index: the canonical numeral of an
    integer below [2^32 - 1].  Such properties are enumerated first, in
    ascending numeric order. *)
Definition array_index (k : string) : option N :=
  match k with
  | EmptyString => None
  | String c k' =>
      if Ascii.eqb c "0" && negb (String.eqb k' "") then None
      else n ← decimal 0 k; if (n <? 2 ^ 32 - 1)%N then Some n else None
  end.

Fixpoint get (k : string) (o : JSObject) : option JSValue :=
  match o with
  | [] => None
  | (k', v) :: o' => if String.eqb k' k then Some v else get k o'
  end.

Fixpoint overwrite (k : string) (v : JSValue) (o : JSObject) : JSObject :=
  match o with
  | [] => []
  | (k', v') :: o' =>
      if String.eqb k' k then (k', v) :: o' else (k', v') :: overwrite k v o'
  end.

Fixpoint insert_index (n : N) (k : string) (v : JSValue) (o : JSObject)
  : JSObject :=
  match o with
  | [] => [(k, v)]
  | (k', v') :: o' =>
      match array_index k' with
      | Some n' =>
          if (n' <? n)%N then (k', v') :: insert_index n k v o'
          else (k, v) :: o
      | None => (k, v) :: o
      end
  end.

(** [o[k] = v] on an object whose prototype is [Object.prototype], as
    the object literals of the wrappers are: an existing property keeps
    its place; a new one goes among the array indices if it is one, to
    the end otherwise.  The name [__proto__], when it is not an own
    property, is the accessor of the prototype: the write goes to its
    setter and the own properties stay as they are. *)
Definition set (k : string) (v : JSValue) (o : JSObject) : JSObject :=
  match get k o with
  | Some _ => overwrite k v o
  | None =>
      if String.eqb k "__proto__" then o
      else
        match array_index k with
        | Some n => insert_index n k v o
        | None => (o ++ [(k, v)])
        end
  end.

(** [Object.assign(target, source)]: the properties of [source] are
    written to [target] one by one, in the order [source] enumerates
    them. *)
Definition assign (target source : JSObject) : JSObject :=
  fold_left (fun t kv => set kv.1 kv.2 t) source target.

Definition keys (o : JSObject) : list string := List.map fst o.

(** A well-formed object has each property name once. *)
Definition wf (o : JSObject) : Prop := NoDup (keys o).


(** Enumeration order: array indices first, in ascending order, then
    the other names. *)
Definition precedes (k1 k2 : string) : bool :=
  match array_index k1, array_index k2 with
  | Some a, Some b => (a <? b)%N
  | Some _, None => true
  | None, Some _ => false
  | None, None => true
  end.

Fixpoint ordered (o : JSObject) : bool :=
  match o with
  | [] => true
  | kv :: o' => forallb (fun kv' => precedes kv.1 kv'.1) o' && ordered o'
  end.

End Obj.

Module QS.

Definition stringifyPrimitive (v : JSValue) : string :=
  match v with
  | JSString s => s
  | JSNumber z => NilZero.string_of_int (Z.to_int z)
  | JSBoolean b => if b then "true" else "false"
  | JSNull | JSUndefined => ""
  end.

Definition field (kv : string * JSValue) : string :=
  QueryString.escape kv.1 +:+ "=" +:+
  QueryString.escape (stringifyPrimitive kv.2).

Definition fields (o : JSObject) : list string := List.map field o.

(** [querystring.stringify(obj)] with the default separators, for an
    object of primitive values: one field for each property.  (A value
    that is an array has a field for each element; [JSValue] has no
    arrays.) *)
Definition stringify (o : JSObject) : string := Str.join "&" (fields o).

End QS.

(** ** The token payloads of [OAuth2] *)

Module OAuth2Payload.

(** [requestToken]: [Object.assign({ grant_type: 'password' }, data)]. *)
Definition requestToken_dataCopy (data : JSObject) : JSObject :=
  Obj.assign [("grant_type", JSString "password")] data.

(** [refreshToken]:
    [Object.assign({}, data, { grant_type: 'refresh_token' })]. *)
Definition refreshToken_dataCopy (data : JSObject) : JSObject :=
  Obj.assign (Obj.assign [] data) [("grant_type", JSString "refresh_token")].

(** [querystring.stringify(dataCopy).replace('%40', '@')]. *)
Definition dataStringified (dataCopy : JSObject) : string :=
  Str.replace "%40" "@" (QS.stringify dataCopy).

End OAuth2Payload.

(** ** [Buffer.from(s).toString('base64')] *)

Module Base64.

Definition alphabet : string :=
  "ABCDEFGHIJKLMNOPQRSTUVWXYZabcdefghijklmnopqrstuvwxyz0123456789+/".

Definition sextet (n : N) : ascii :=
  default "="%char (String.get (N.to_nat n) alphabet).

Fixpoint encode_bytes (l : list N) : string :=
  match l with
  | [] => ""
  | [a] =>
      String (sextet (a / 4)) (String (sextet (a mod 4 * 16)) "==")
  | [a; b] =>
      String (sextet (a / 4))
        (String (sextet (a mod 4 * 16 + b / 16))
           (String (sextet (b mod 16 * 4)) "="))
  | a :: b :: c :: l' =>
      String (sextet (a / 4))
        (String (sextet (a mod 4 * 16 + b / 16))
           (String (sextet (b mod 16 * 4 + c / 64))
              (String (sextet (c mod 64)) (encode_bytes l'))))
  end%N.

Definition encode (s : string) : string := encode_bytes (Str.bytes s).


(** The inverse of the encoding, by which what a credentials string
    stands for is read back: the value of a character is its place in
    the alphabet, four characters give three bytes, and an ending in one
    or two [=] gives two bytes or one. *)
Fixpoint index_of (c : ascii) (s : string) : option N :=
  match s with
  | EmptyString => None
  | String d s' => if Ascii.eqb c d then Some 0%N else N.succ <$> index_of c s'
  end.

Definition sextet_value (c : ascii) : option N := index_of c alphabet.

Definition is_pad (c : ascii) : bool := Ascii.eqb c "=".

Definition at_end (l : list ascii) : bool :=
  match l with [] => true | _ => false end.

Fixpoint decode_chars (l : list ascii) : option (list N) :=
  match l with
  | [] => Some []
  | a :: b :: c :: d :: l' =>
      match sextet_value a, sextet_value b with
      | Some x, Some y =>
          match sextet_value c, sextet_value d with
          | Some z, Some w =>
              rest ← decode_chars l';
              Some (x * 4 + y / 16 :: y mod 16 * 16 + z / 4 :: z mod 4 * 64 + w :: rest)
          | Some z, None =>
              if is_pad d && at_end l'
              then Some [x * 4 + y / 16; y mod 16 * 16 + z / 4]
              else None
          | None, _ =>
              if is_pad c && is_pad d && at_end l' then Some [x * 4 + y / 16] else None
          end
      | _, _ => None
      end
  | _ => None
  end%N.

Definition decode (s : string) : option string :=
  bytes ← decode_chars (list_ascii_of_string s);
  Some (string_of_list_ascii (List.map ascii_of_N bytes)).

End Base64.

(** ** Client configuration and [bin/remove-document] *)

(** The object handed to [require('../lib')]. *)
Record ApiConfig := { credentials : string; production : bool }.

Module RemoveDocument.

(** [/^--/.test(arg)] *)
Definition is_flag (arg : string) : bool := Str.starts_with "--" arg.

(** [process.argv.slice(2)] *)
Definition args (argv : list string) : list string := drop 2 argv.

Definition flags (argv : list string) : list string :=
  filter (λ arg, is_flag arg) (args argv).

Definition params (argv : list string) : list string :=
  filter (λ arg, negb (is_flag arg)) (args argv).

(** The array destructuring of [params]; a missing element is
    [undefined], here [None]. *)
Definition clientId (argv : list string) : option string := params argv !! 0.
Definition clientSecret (argv : list string) : option string := params argv !! 1.
Definition username (argv : list string) : option string := params argv !! 2.
Definition password (argv : list string) : option string := params argv !! 3.
Definition documentId (argv : list string) : option string := params argv !! 4.

Definition includes (x : string) (l : list string) : bool :=
  existsb (String.eqb x) l.

Definition cancelInvites (argv : list string) : bool :=
  includes "--cancel-invites" (flags argv).

Definition dev (argv : list string) : bool := includes "--dev" (flags argv).

(** String conversion inside a template literal. *)
Definition interpolate (v : option string) : string := default "undefined" v.

Definition config (argv : list string) : ApiConfig :=
  {| credentials :=
       Base64.encode
         (interpolate (clientId argv) +:+ ":" +:+ interpolate (clientSecret argv));
     production := negb (dev argv) |}.


(** A positional parameter as a property value: a missing one is
    [undefined]. *)
Definition value (v : option string) : JSValue :=
  match v with
  | Some s => JSString s
  | None => JSUndefined
  end.

(** The payload handed to the token request: [{ username, password }]. *)
Definition token_data (argv : list string) : JSObject :=
  [("username", value (username argv)); ("password", value (password argv))].


(** The reading of a command line that the usage text describes: the
    arguments that begin with [--] are the flags, the others are the
    parameters, and both keep the order they were given in. *)
Inductive Reads : list string -> list string -> list string -> Prop :=
| reads_none : Reads [] [] []
| reads_flag arg rest args flags params :
    arg = "--" +:+ rest ->
    Reads args flags params -> Reads (arg :: args) (arg :: flags) params
| reads_param arg args flags params :
    (forall rest, arg <> "--" +:+ rest) ->
    Reads args flags params -> Reads (arg :: args) flags (arg :: params).

End RemoveDocument.

(** ** [JSON.stringify] of a flat object *)

Module Json.

Definition dquote : ascii := "034"%char.
Definition backslash : ascii := "092"%char.

Definition lower_hex (n : N) : ascii :=
  if (n <? 10)%N then ascii_of_N (48 + n) else ascii_of_N (87 + n).

Definition quote_char (c : ascii) : string :=
  let n := N_of_ascii c in
  if (n =? 8)%N then String backslash "b"
  else if (n =? 9)%N then String backslash "t"
  else if (n =? 10)%N then String backslash "n"
  else if (n =? 12)%N then String backslash "f"
  else if (n =? 13)%N then String backslash "r"
  else if (n =? 34)%N then String backslash (String dquote "")
  else if (n =? 92)%N then String backslash (String backslash "")
  else if (n <? 32)%N then
    String backslash
      (String "u" (String "0" (String "0"
         (String (lower_hex (n / 16)) (String (lower_hex (n mod 16)) "")))))
  else String c "".

Fixpoint quote_body (s : string) : string :=
  match s with
  | EmptyString => EmptyString
  | String c s' => quote_char c +:+ quote_body s'
  end.

Definition quote (s : string) : string :=
  String dquote (quote_body s +:+ String dquote "").

(** A property whose value is [undefined] is left out. *)
Definition member (kv : string * JSValue) : option string :=
  match kv.2 with
  | JSString s => Some (quote kv.1 +:+ ":" +:+ quote s)
  | JSNumber z => Some (quote kv.1 +:+ ":" +:+ NilZero.string_of_int (Z.to_int z))
  | JSBoolean b => Some (quote kv.1 +:+ ":" +:+ (if b then "true" else "false"))
  | JSNull => Some (quote kv.1 +:+ ":null")
  | JSUndefined => None
  end.

Definition stringify (o : JSObject) : string :=
  "{" +:+ Str.join "," (omap member o) +:+ "}".

End Json.

(** ** Request descriptors *)

Inductive Method := GET | POST | PUT.

(** A header value is a string or, for [Content-Length], a number. *)
Inductive HeaderValue :=
| HString (s : string)
| HNumber (n : nat).

Abbreviation Headers := (gmap string HeaderValue).

Inductive AuthorizationMode :=
| NoAuthorization
| Basic (creds : string)
| Bearer (token : string).

Record RequestIntent := {
  method : Method;
  path : string;
  authorization : AuthorizationMode;
  headers : Headers;
  body : option string
}.

(** The two hosts of the service and the flag fixed when the client is
    configured. *)
Record Target := {
  production_host : string;
  sandbox_host : string;
  is_production : bool
}.

Record RequestOptions := {
  opt_host : string;
  opt_method : Method;
  opt_path : string;
  opt_headers : Headers
}.

Module RequestBuilder.

(** Modelled from the spec: the request builder of [lib/common], which
    the endpoint wrappers import as [buildRequestOptions] and whose
    text is not part of the sources at hand.  The computed
    [Authorization] value is ["Basic " + credentials], ["Bearer " +
    token], or none. *)
Definition authorization_header (m : AuthorizationMode) : option string :=
  match m with
  | NoAuthorization => None
  | Basic creds => Some ("Basic " +:+ creds)
  | Bearer token => Some ("Bearer " +:+ token)
  end.

(** Modelled from the spec: merging the caller's headers with the
    computed one.  The authorization mode determines the
    [Authorization] header attached to the request: the computed value
    when there is one, no such header otherwise.  Every other header is
    the caller's. *)
Definition merge_headers (computed : option string) (hs : Headers) : Headers :=
  match computed with
  | Some v => <["Authorization" := HString v]> hs
  | None => delete "Authorization" hs
  end.

(** Modelled from the spec: [build(intent, target)].  The host follows
    the production flag; method and path are the intent's; no content
    header is added and the body is not looked at. *)
Definition build (intent : RequestIntent) (target : Target) : RequestOptions :=
  {| opt_host :=
       if is_production target then production_host target
       else sandbox_host target;
     opt_method := method intent;
     opt_path := path intent;
     opt_headers :=
       merge_headers (authorization_header (authorization intent))
         (headers intent) |}.

End RequestBuilder.

(** The [authorization] property of the object the wrappers pass to
    [buildRequestOptions]: [{ type: 'Basic' }] or
    [{ type: 'Bearer', token }]. *)
Inductive AuthorizationArg :=
| type_Basic
| type_Bearer (token : string).

(** The object the wrappers pass to [buildRequestOptions]; [headers] may
    be left out. *)
Record BuildArgs := {
  arg_method : Method;
  arg_path : string;
  arg_authorization : AuthorizationArg;
  arg_headers : option Headers
}.

(** What [req.end()] puts on the wire. *)
Record Request := {
  req_options : RequestOptions;
  req_body : string
}.

(** How the transport settles a request: a response with its status code
    and its body chunks in arrival order, or a failure before any
    response. *)
Inductive Outcome :=
| Responded (status : Z) (chunks : list string)
| Failed (reason : string).

Inductive StreamEvent :=
| Data (chunk : string)
| End_.

Record IncomingMessage := {
  res_statusCode : Z;
  res_events : list StreamEvent
}.

(** ** A sample environment

    Concrete stand-ins for what the library is parameterised by, used to
    run the wrappers: a client configured for production, a parser that
    takes a body opening with a brace for an object (and yields its
    text), and networks that answer from a script. *)

Module Sample.

Definition parse (rawData : string) : option string :=
  if Str.starts_with "{" rawData then Some rawData else None.

Definition settings : ApiConfig :=
  {| credentials := "Y2lkOnNlY3JldA=="; production := true |}.

Definition host : string := "api.example.com".
Definition sandbox : string := "api-eval.example.com".

(** The [n]-th request gets the [n]-th outcome of the script; past its
    end the connection fails. *)
Definition network (script : list Outcome) : nat -> Request -> Outcome :=
  fun n _ => default (Failed "ENOTFOUND") (script !! n).

Definition token_payload : JSObject :=
  [("username", JSString "u@x.com"); ("password", JSString "p")].

Definition two_addresses : JSObject :=
  [("username", JSString "a@b.c"); ("password", JSString "p@ss")].

Definition with_grant_type : JSObject :=
  [("grant_type", JSString "authorization_code"); ("code", JSString "xyz")].

Definition options : RequestOptions :=
  {| opt_host := host; opt_method := GET; opt_path := "/user"; opt_headers := ∅ |}.


Definition refresh_payload : JSObject :=
  [("refresh_token", JSString "r3fr3sh"); ("scope", JSString "user info")].

End Sample.

Section Client.

(** The parsed form of a response body is opaque to the library, and
    [JSON.parse] is the platform's: [None] when it throws. *)
Context {JSON : Type}.
Variable JSON_parse : string -> option JSON.

(** The configured client and the hosts it may address. *)
Variable settings : ApiConfig.
Variable api_host sandbox_api_host : string.

(** The network: the outcome of the request dispatched after [n] others. *)
Variable transport : nat -> Request -> Outcome.

(** *** Normalised errors *)

(** Modelled from the spec: the message of an error is the body of the
    response, parsed when it parses and as raw text otherwise, or the
    transport's own message. *)
Inductive ErrorMessage :=
| ParsedBody (parsed : JSON)
| RawText (text : string).

(** Modelled from the spec: the error object of the data model, its
    status code absent for a failure of the transport.  The optional
    [raw] field, which nothing here reads, is left out. *)
Record ApiError := {
  statusCode : option Z;
  message : ErrorMessage
}.

(** Modelled from the spec: what a continuation gets as its error, an
    [ApiError] or the parse error of a malformed body. *)
Inductive NormalizedError :=
| ApiErr (e : ApiError)
| ParseErr (rawData : string).

(** *** The world *)

(** What an observer of the library sees, in order: requests put on the
    wire, and invocations [callback(err, res)] of the callback the
    caller handed in, an absent or [null] argument being [None]. *)
Inductive Event :=
| Sent (r : Request)
| Invoked (err : option NormalizedError) (res : option JSON).

Definition World := list Event.

Definition Continuation := option NormalizedError -> option JSON -> World -> World.

(** The caller's own callback, seen from outside. *)
Definition caller : Continuation := fun err res w => (w ++ [Invoked err res]).

Definition is_sent (e : Event) : bool :=
  match e with Sent _ => true | Invoked _ _ => false end.

Definition dispatched (w : World) : nat := length (List.filter is_sent w).

Fixpoint requests (w : World) : list Request :=
  match w with
  | [] => []
  | Sent r :: w' => r :: requests w'
  | Invoked _ _ :: w' => requests w'
  end.

Fixpoint invocations (w : World)
  : list (option NormalizedError * option JSON) :=
  match w with
  | [] => []
  | Sent _ :: w' => invocations w'
  | Invoked err res :: w' => (err, res) :: invocations w'
  end.

(** *** Response and error handlers *)

(** Modelled from the spec: the success range, 2xx. *)
Definition success (status : Z) : bool :=
  ((200 <=? status) && (status <=? 299))%Z.

(** The pair [(err, res)] a continuation is called with. *)
Definition CallbackArguments := (option NormalizedError * option JSON)%type.

(** Modelled from the spec: the normalisation of a complete response.
    The status is looked at first: in the success range the parsed body
    is the result, or a parse error if the body is malformed; outside
    it the error carries the status and the body, parsed when
    possible. *)
Definition normalized (status : Z) (rawData : string) : CallbackArguments :=
  if success status then
    match JSON_parse rawData with
    | Some parsed => (None, Some parsed)
    | None => (Some (ParseErr rawData), None)
    end
  else
    (Some (ApiErr {| statusCode := Some status;
                     message := match JSON_parse rawData with
                                | Some parsed => ParsedBody parsed
                                | None => RawText rawData
                                end |}),
     None).

(** Modelled from the spec: the normalisation of a transport failure. *)
Definition transport_error (reason : string) : CallbackArguments :=
  (Some (ApiErr {| statusCode := None; message := RawText reason |}), None).

(** Modelled from the spec: what the response handler of [lib/common]
    does once the stream has ended. *)
Definition on_end (callback : Continuation) (status : Z) (rawData : string)
  : World -> World :=
  let result := normalized status rawData in
  callback result.1 result.2.

(** Modelled from the spec: the two listeners the response handler
    attaches, run over the events of the stream.  Chunks are appended
    in arrival order; nothing guards against a second end-of-data. *)
Fixpoint listen (callback : Continuation) (status : Z) (rawData : string)
  (events : list StreamEvent) (w : World) : World :=
  match events with
  | [] => w
  | Data chunk :: events' => listen callback status (rawData +:+ chunk) events' w
  | End_ :: events' => listen callback status rawData events' (on_end callback status rawData w)
  end.

(** Modelled from the spec: [responseHandler(callback)] of [lib/common]. *)
Definition responseHandler (callback : Continuation) (res : IncomingMessage)
  : World -> World :=
  listen callback (res_statusCode res) "" (res_events res).

(** Modelled from the spec: [errorHandler(callback)] of [lib/common]. *)
Definition errorHandler (callback : Continuation) (reason : string)
  : World -> World :=
  let result := transport_error reason in
  callback result.1 result.2.

(** Modelled from the spec: [buildRequestOptions] of [lib/common], with
    the one argument the wrappers give it.  [{ type: 'Basic' }] stands
    for the credentials the client was configured with, and the target is
    the configured one. *)
Definition buildRequestOptions (a : BuildArgs) : RequestOptions :=
  RequestBuilder.build
    {| method := arg_method a;
       path := arg_path a;
       authorization :=
         match arg_authorization a with
         | type_Basic => Basic (credentials settings)
         | type_Bearer token => Bearer token
         end;
       headers := default ∅ (arg_headers a);
       body := None |}
    {| production_host := api_host;
       sandbox_host := sandbox_api_host;
       is_production := production settings |}.

(** *** [https.request] *)

Record ClientRequest := {
  cr_options : RequestOptions;
  cr_response : IncomingMessage -> World -> World;
  cr_error : list (string -> World -> World);
  cr_written : string
}.

Definition https_request (options : RequestOptions)
  (onResponse : IncomingMessage -> World -> World) : ClientRequest :=
  {| cr_options := options; cr_response := onResponse;
     cr_error := []; cr_written := "" |}.

(** [req.on('error', listener)] *)
Definition on_error (listener : string -> World -> World) (req : ClientRequest)
  : ClientRequest :=
  {| cr_options := cr_options req; cr_response := cr_response req;
     cr_error := (cr_error req ++ [listener]);
     cr_written := cr_written req |}.

(** [req.write(chunk)] *)
Definition write (chunk : string) (req : ClientRequest) : ClientRequest :=
  {| cr_options := cr_options req; cr_response := cr_response req;
     cr_error := cr_error req; cr_written := cr_written req +:+ chunk |}.

(** The events of a response stream that runs to completion. *)
Definition stream (chunks : list string) : list StreamEvent :=
  (List.map Data chunks ++ [End_]).

(** What the transport does with a request once it is on the wire:
    either the response event with a stream that runs to its end, or
    the error event. *)
Definition settle (req : ClientRequest) (o : Outcome) : World -> World :=
  match o with
  | Responded status chunks =>
      cr_response req {| res_statusCode := status; res_events := stream chunks |}
  | Failed reason =>
      fun w => fold_left (fun w' listener => listener reason w') (cr_error req) w
  end.

(** [req.end()]: the request goes out and is settled. *)
Definition end_ (req : ClientRequest) (w : World) : World :=
  let r := {| req_options := cr_options req; req_body := cr_written req |} in
  settle req (transport (dispatched w) r) (w ++ [Sent r]).

(** The request as every wrapper builds it: one continuation for the
    response, one for the error event. *)
Definition wrapped (options : RequestOptions) (kr ke : Continuation)
  : ClientRequest :=
  on_error (errorHandler ke) (https_request options (responseHandler kr)).

(** What a run from world [before] to world [after] added. *)
Definition emitted (before after : World) : World :=
  drop (length before) after.

(** The body a complete stream delivers. *)
Definition received (chunks : list string) : string :=
  foldr String.append "" chunks.

(** What the handlers hand to the continuation for an outcome. *)
Definition normalize (o : Outcome) : CallbackArguments :=
  match o with
  | Responded status chunks => normalized status (received chunks)
  | Failed reason => transport_error reason
  end.

(** *** [OAuth2] *)

Definition form_headers (dataStringified : string) : Headers :=
  {[ "Content-Type" := HString "application/x-www-form-urlencoded";
     "Content-Length" := HNumber (String.length dataStringified) ]}.

Definition OAuth2_requestToken (data : JSObject) (callback : Continuation)
  : World -> World :=
  let dataCopy := OAuth2Payload.requestToken_dataCopy data in
  let dataStringified := OAuth2Payload.dataStringified dataCopy in
  let req :=
    on_error (errorHandler callback)
      (https_request
         (buildRequestOptions
            {| arg_method := POST;
               arg_path := "/oauth2/token";
               arg_authorization := type_Basic;
               arg_headers := Some (form_headers dataStringified) |})
         (responseHandler callback)) in
  end_ (write dataStringified req).

Definition OAuth2_verify (token : string) (callback : Continuation)
  : World -> World :=
  end_
    (on_error (errorHandler callback)
       (https_request
          (buildRequestOptions
             {| arg_method := GET;
                arg_path := "/oauth2/token";
                arg_authorization := type_Bearer token;
                arg_headers := None |})
          (responseHandler callback))).

Definition OAuth2_refreshToken (data : JSObject) (callback : Continuation)
  : World -> World :=
  let dataCopy := OAuth2Payload.refreshToken_dataCopy data in
  let dataStringified := OAuth2Payload.dataStringified dataCopy in
  let req :=
    on_error (errorHandler callback)
      (https_request
         (buildRequestOptions
            {| arg_method := POST;
               arg_path := "/oauth2/token";
               arg_authorization := type_Basic;
               arg_headers := Some (form_headers dataStringified) |})
         (responseHandler callback)) in
  end_ (write dataStringified req).

(** *** [User] *)

Record CreateUserOptions := {
  verifyEmail : JSValue;
  startTrial : JSValue
}.

Record UserCreateParams := {
  email : JSValue;
  password : JSValue;
  first_name : JSValue;
  last_name : JSValue;
  number : JSValue;
  options : option CreateUserOptions
}.

(** Truthiness of a value in a condition. *)
Definition truthy (v : JSValue) : bool :=
  match v with
  | JSString s => negb (String.eqb s "")
  | JSNumber z => negb (z =? 0)%Z
  | JSBoolean b => b
  | JSNull | JSUndefined => false
  end.

(** A destructuring default: it replaces [undefined] only. *)
Definition or_default (d v : JSValue) : JSValue :=
  match v with JSUndefined => d | _ => v end.

Definition json_headers (JSONData : string) : Headers :=
  {[ "Content-Type" := HString "application/json";
     "Content-Length" := HNumber (String.length JSONData) ]}.

Definition User_verifyEmail (email : JSValue) (callback : Continuation)
  : World -> World :=
  let JSONData := Json.stringify [("email", email)] in
  let req :=
    on_error (errorHandler callback)
      (https_request
         (buildRequestOptions
            {| arg_method := POST;
               arg_path := "/user/verifyemail";
               arg_authorization := type_Basic;
               arg_headers := Some (json_headers JSONData) |})
         (responseHandler callback)) in
  end_ (write JSONData req).

Definition create_JSONData (data : UserCreateParams) : string :=
  let startTrial :=
    or_default (JSBoolean false)
      (from_option startTrial JSUndefined (options data)) in
  Json.stringify
    [("skip_30day_trial", JSNumber (if truthy startTrial then 0 else 1));
     ("email", email data);
     ("password", password data);
     ("first_name", first_name data);
     ("last_name", last_name data);
     ("number", number data)].

Definition callbackWithEmailVerification (email : JSValue)
  (originalCallback : Continuation) : Continuation :=
  fun createErr createRes =>
    match createErr with
    | Some _ => originalCallback createErr None
    | None =>
        User_verifyEmail email
          (fun verifyErr _ =>
             match verifyErr with
             | Some _ => originalCallback verifyErr None
             | None => originalCallback None createRes
             end)
    end.

Definition User_create (data : UserCreateParams) (originalCallback : Continuation)
  : World -> World :=
  let verifyEmail :=
    or_default (JSBoolean false)
      (from_option verifyEmail JSUndefined (options data)) in
  let JSONData := create_JSONData data in
  let callback :=
    if truthy verifyEmail
    then callbackWithEmailVerification (email data) originalCallback
    else originalCallback in
  let req :=
    on_error (errorHandler callback)
      (https_request
         (buildRequestOptions
            {| arg_method := POST;
               arg_path := "/user";
               arg_authorization := type_Basic;
               arg_headers := Some (json_headers JSONData) |})
         (responseHandler callback)) in
  end_ (write JSONData req).

Definition User_retrieve (token : string) (callback : Continuation)
  : World -> World :=
  end_
    (on_error (errorHandler callback)
       (https_request
          (buildRequestOptions
             {| arg_method := GET;
                arg_path := "/user";
                arg_authorization := type_Bearer token;
                arg_headers := None |})
          (responseHandler callback))).

Definition User_deactivateReusableSignatures (token : string)
  (callback : Continuation) : World -> World :=
  let JSONData := Json.stringify [("active", JSNumber 1)] in
  let req :=
    on_error (errorHandler callback)
      (https_request
         (buildRequestOptions
            {| arg_method := PUT;
               arg_path := "/user/setting/no_user_signature_return";
               arg_authorization := type_Bearer token;
               arg_headers := Some (json_headers JSONData) |})
         (responseHandler callback)) in
  end_ (write JSONData req).

(** *** The requests the wrappers put on the wire *)

Definition token_request (dataStringified : string) : Request :=
  {| req_options :=
       buildRequestOptions
         {| arg_method := POST;
            arg_path := "/oauth2/token";
            arg_authorization := type_Basic;
            arg_headers := Some (form_headers dataStringified) |};
     req_body := dataStringified |}.

Definition OAuth2_requestToken_request (data : JSObject) : Request :=
  token_request
    (OAuth2Payload.dataStringified (OAuth2Payload.requestToken_dataCopy data)).

Definition OAuth2_refreshToken_request (data : JSObject) : Request :=
  token_request
    (OAuth2Payload.dataStringified (OAuth2Payload.refreshToken_dataCopy data)).

Definition OAuth2_verify_request (token : string) : Request :=
  {| req_options :=
       buildRequestOptions
         {| arg_method := GET;
            arg_path := "/oauth2/token";
            arg_authorization := type_Bearer token;
            arg_headers := None |};
     req_body := "" |}.

Definition User_create_request (data : UserCreateParams) : Request :=
  {| req_options :=
       buildRequestOptions
         {| arg_method := POST;
            arg_path := "/user";
            arg_authorization := type_Basic;
            arg_headers := Some (json_headers (create_JSONData data)) |};
     req_body := create_JSONData data |}.

Definition User_verifyEmail_request (email : JSValue) : Request :=
  {| req_options :=
       buildRequestOptions
         {| arg_method := POST;
            arg_path := "/user/verifyemail";
            arg_authorization := type_Basic;
            arg_headers := Some (json_headers (Json.stringify [("email", email)])) |};
     req_body := Json.stringify [("email", email)] |}.

Definition User_retrieve_request (token : string) : Request :=
  {| req_options :=
       buildRequestOptions
         {| arg_method := GET;
            arg_path := "/user";
            arg_authorization := type_Bearer token;
            arg_headers := None |};
     req_body := "" |}.

Definition User_deactivateReusableSignatures_request (token : string) : Request :=
  {| req_options :=
       buildRequestOptions
         {| arg_method := PUT;
            arg_path := "/user/setting/no_user_signature_return";
            arg_authorization := type_Bearer token;
            arg_headers := Some (json_headers (Json.stringify [("active", JSNumber 1)])) |};
     req_body := Json.stringify [("active", JSNumber 1)] |}.

(** The outcome of request [r] when [n] requests went out before it,
    as the handlers normalise it. *)
Definition answer (n : nat) (r : Request) : CallbackArguments :=
  normalize (transport n r).

(** Whether [User.create] was asked to send the verification mail. *)
Definition wants_verification (data : UserCreateParams) : bool :=
  truthy (or_default (JSBoolean false)
            (from_option verifyEmail JSUndefined (options data))).

Definition header (name : string) (r : Request) : option HeaderValue :=
  opt_headers (req_options r) !! name.

(** Every request a run puts on the wire satisfies [P], and there is
    one at least. *)
Definition every_request (P : Request -> Prop) (run : World -> World)
  (w : World) : Prop :=
  requests (emitted w (run w)) ≠ [] ∧ Forall P (requests (emitted w (run w))).

(** The content headers agree with the body written. *)
Definition content_headers (type : string) (r : Request) : Prop :=
  header "Content-Type" r = Some (HString type)
  ∧ header "Content-Length" r = Some (HNumber (String.length (req_body r))).

(** Of the occurrences of [%40] in [enc], [body] has the first turned
    into [@] and every later one as it was. *)
Definition first_restored (enc body : string) : Prop :=
  ∃ pre post,
    enc = pre +:+ "%40" +:+ post
    ∧ Str.occurrences "%40" pre = 0
    ∧ body = pre +:+ "@" +:+ post
    ∧ Str.occurrences "%40" post = Str.occurrences "%40" enc - 1
    ∧ Str.occurrences "%40" body = Str.occurrences "%40" enc - 1.

(** ** Properties of the handlers *)

Lemma app_assoc_s (a b c : string) : (a +:+ b) +:+ c = a +:+ (b +:+ c).
Proof. induction a as [|x a IH]; [reflexivity|]. cbv [String.append] in *; fold String.append in *. by rewrite IH. Qed.

Lemma app_nil_r_s (a : string) : a +:+ "" = a.
Proof. induction a as [|x a IH]; [reflexivity|]. cbv [String.append] in *; fold String.append in *. by rewrite IH. Qed.

(** Data events only grow the buffer; the end of the stream hands the
    whole body to [on_end], once. *)
Lemma listen_stream (k : Continuation) status rawData chunks w :
  listen k status rawData (stream chunks) w
  = on_end k status (rawData +:+ received chunks) w.
Proof.
  revert rawData. induction chunks as [|c chunks IH]; intros rawData.
  - cbn. by rewrite app_nil_r_s.
  - cbn. unfold stream in IH. rewrite IH. by rewrite app_assoc_s.
Qed.

(** Settling a wrapped request applies exactly one of the two
    continuations, once, to the normalised outcome. *)
Lemma settle_wrapped options (kr ke : Continuation) body o w :
  settle (write body (wrapped options kr ke)) o w
  = match o with
    | Responded _ _ => kr (normalize o).1 (normalize o).2 w
    | Failed _ => ke (normalize o).1 (normalize o).2 w
    end.
Proof.
  destruct o as [status chunks|reason]; cbn.
  - unfold responseHandler. cbn. by rewrite listen_stream.
  - reflexivity.
Qed.

Lemma settle_wrapped_same options (k : Continuation) body o w :
  settle (write body (wrapped options k k)) o w
  = k (normalize o).1 (normalize o).2 w.
Proof. rewrite settle_wrapped. by destruct o. Qed.

Lemma end_wrapped options (k : Continuation) body w :
  end_ (write body (wrapped options k k)) w
  = let r := {| req_options := options; req_body := body |} in
    let result := normalize (transport (dispatched w) r) in
    k result.1 result.2 (w ++ [Sent r]).
Proof. unfold end_. by rewrite settle_wrapped_same. Qed.

Lemma end_wrapped_empty options (k : Continuation) w :
  end_ (wrapped options k k) w
  = let r := {| req_options := options; req_body := "" |} in
    let result := normalize (transport (dispatched w) r) in
    k result.1 result.2 (w ++ [Sent r]).
Proof. apply (end_wrapped options k "" w). Qed.

Lemma invocations_app (w1 w2 : World) :
  invocations (w1 ++ w2) = (invocations w1 ++ invocations w2).
Proof.
  induction w1 as [|[r|err res] w1 IH]; cbn; [done| done |by rewrite IH].
Qed.

Lemma requests_app (w1 w2 : World) :
  requests (w1 ++ w2) = (requests w1 ++ requests w2).
Proof.
  induction w1 as [|[r|err res] w1 IH]; cbn; [done|by rewrite IH|done].
Qed.

Lemma emitted_app (w added : World) : emitted w (w ++ added) = added.
Proof. apply drop_app_length. Qed.


(** The handlers themselves carry no single-fire guard: a stream that
    signalled its end twice would fire the continuation twice. *)
Remark listen_unguarded status rawData (w : World) :
  length (invocations (emitted w (listen caller status rawData [End_; End_] w))) = 2.
Proof. cbn. unfold on_end, caller. rewrite <- app_assoc, emitted_app. reflexivity. Qed.

(** C3. The case analysis of the response normaliser: a 2xx response
    with a body that parses yields [(null, parsedBody)]; a response
    outside the 2xx range yields an [ApiError] with the status code and
    the body, parsed when possible and as raw text otherwise; a
    transport failure yields an [ApiError] without status code whose
    message is the transport's. *)
Theorem response_normalizer_cases options body (w : World) :
  (∀ status chunks parsed,
      (200 ≤ status ≤ 299)%Z →
      JSON_parse (received chunks) = Some parsed →
      settle (write body (wrapped options caller caller)) (Responded status chunks) w
      = w ++ [Invoked None (Some parsed)])
  ∧ (∀ status chunks,
      ¬ (200 ≤ status ≤ 299)%Z →
      settle (write body (wrapped options caller caller)) (Responded status chunks) w
      = w ++ [Invoked
                (Some (ApiErr {| statusCode := Some status;
                                 message :=
                                   match JSON_parse (received chunks) with
                                   | Some parsed => ParsedBody parsed
                                   | None => RawText (received chunks)
                                   end |}))
                None])
  ∧ (∀ reason,
      settle (write body (wrapped options caller caller)) (Failed reason) w
      = w ++ [Invoked
                (Some (ApiErr {| statusCode := None; message := RawText reason |}))
                None]).
Proof.
  split; [|split].
  - intros status chunks parsed Hs Hp. rewrite settle_wrapped_same. cbn.
    unfold normalized, success. rewrite Hp.
    replace ((200 <=? status)%Z && (status <=? 299)%Z) with true; [done|].
    symmetry. apply andb_true_iff. split; apply Z.leb_le; lia.
  - intros status chunks Hs. rewrite settle_wrapped_same. cbn.
    unfold normalized, success.
    replace ((200 <=? status)%Z && (status <=? 299)%Z) with false; [done|].
    symmetry. apply andb_false_iff.
    destruct (Z.leb_spec 200 status); [right|left; done].
    apply Z.leb_gt. lia.
  - intros reason. by rewrite settle_wrapped_same.
Qed.

(** ** Properties of the request builder *)

(** C4. The [Authorization] header of a built request is exactly
    ["Basic " + credentials] in Basic mode, exactly ["Bearer " + t] in
    mode Bearer(t), and absent when there is no authorization mode. *)
Theorem authorization_header_by_mode (intent : RequestIntent) (target : Target) :
  opt_headers (RequestBuilder.build intent target) !! "Authorization"
  = match authorization intent with
    | Basic creds => Some (HString ("Basic " +:+ creds))
    | Bearer t => Some (HString ("Bearer " +:+ t))
    | NoAuthorization => None
    end.
Proof.
  unfold RequestBuilder.build, RequestBuilder.merge_headers. cbn.
  destruct (authorization intent); cbn.
  - apply lookup_delete_eq.
  - apply lookup_insert_eq.
  - apply lookup_insert_eq.
Qed.

Lemma build_authorization (a : BuildArgs) :
  opt_headers (buildRequestOptions a) !! "Authorization"
  = Some (HString match arg_authorization a with
                  | type_Basic => "Basic " +:+ credentials settings
                  | type_Bearer token => "Bearer " +:+ token
                  end).
Proof.
  unfold buildRequestOptions, RequestBuilder.build, RequestBuilder.merge_headers.
  destruct (arg_authorization a); cbn; apply lookup_insert_eq.
Qed.

(** The builder leaves every header but [Authorization] as the caller
    gave it. *)
Lemma build_keeps_header (intent : RequestIntent) (target : Target) (name : string) :
  name ≠ "Authorization" →
  opt_headers (RequestBuilder.build intent target) !! name = headers intent !! name.
Proof.
  intros Hne. unfold RequestBuilder.build, RequestBuilder.merge_headers. cbn.
  destruct (RequestBuilder.authorization_header (authorization intent)).
  - by rewrite lookup_insert_ne.
  - by rewrite lookup_delete_ne.
Qed.

(** ** Runs of the wrappers *)

Lemma dispatched_sent (w : World) (r : Request) :
  dispatched (w ++ [Sent r]) = S (dispatched w).
Proof.
  unfold dispatched. rewrite List.filter_app, length_app. cbn. lia.
Qed.

Lemma OAuth2_requestToken_run data (k : Continuation) w :
  OAuth2_requestToken data k w
  = let r := OAuth2_requestToken_request data in
    k (answer (dispatched w) r).1 (answer (dispatched w) r).2 (w ++ [Sent r]).
Proof. apply end_wrapped. Qed.

Lemma OAuth2_refreshToken_run data (k : Continuation) w :
  OAuth2_refreshToken data k w
  = let r := OAuth2_refreshToken_request data in
    k (answer (dispatched w) r).1 (answer (dispatched w) r).2 (w ++ [Sent r]).
Proof. apply end_wrapped. Qed.

Lemma OAuth2_verify_run token (k : Continuation) w :
  OAuth2_verify token k w
  = let r := OAuth2_verify_request token in
    k (answer (dispatched w) r).1 (answer (dispatched w) r).2 (w ++ [Sent r]).
Proof. apply end_wrapped_empty. Qed.

Lemma User_verifyEmail_run email (k : Continuation) w :
  User_verifyEmail email k w
  = let r := User_verifyEmail_request email in
    k (answer (dispatched w) r).1 (answer (dispatched w) r).2 (w ++ [Sent r]).
Proof. apply end_wrapped. Qed.

Lemma User_retrieve_run token (k : Continuation) w :
  User_retrieve token k w
  = let r := User_retrieve_request token in
    k (answer (dispatched w) r).1 (answer (dispatched w) r).2 (w ++ [Sent r]).
Proof. apply end_wrapped_empty. Qed.

Lemma User_deactivateReusableSignatures_run token (k : Continuation) w :
  User_deactivateReusableSignatures token k w
  = let r := User_deactivateReusableSignatures_request token in
    k (answer (dispatched w) r).1 (answer (dispatched w) r).2 (w ++ [Sent r]).
Proof. apply end_wrapped. Qed.

Lemma User_create_plain_run data (k : Continuation) w :
  wants_verification data = false →
  User_create data k w
  = let r := User_create_request data in
    k (answer (dispatched w) r).1 (answer (dispatched w) r).2 (w ++ [Sent r]).
Proof.
  intros Hv. unfold User_create. fold (wants_verification data). rewrite Hv.
  apply end_wrapped.
Qed.

(** The whole run of [User.create] when verification is asked for. *)
Lemma User_create_verified_run data w :
  wants_verification data = true →
  User_create data caller w
  = w ++
    let r1 := User_create_request data in
    let r2 := User_verifyEmail_request (email data) in
    let created := answer (dispatched w) r1 in
    let verified := answer (S (dispatched w)) r2 in
    match created.1 with
    | Some createErr => [Sent r1; Invoked (Some createErr) None]
    | None =>
        match verified.1 with
        | Some verifyErr => [Sent r1; Sent r2; Invoked (Some verifyErr) None]
        | None => [Sent r1; Sent r2; Invoked None created.2]
        end
    end.
Proof.
  intros Hv. unfold User_create. fold (wants_verification data). rewrite Hv.
  etransitivity; [apply end_wrapped|]. cbn zeta.
  fold (User_create_request data).
  fold (answer (dispatched w) (User_create_request data)).
  unfold callbackWithEmailVerification.
  destruct (answer (dispatched w) (User_create_request data)).1 as [createErr|].
  - unfold caller. by rewrite <- app_assoc.
  - rewrite User_verifyEmail_run. cbn zeta. rewrite dispatched_sent.
    destruct (answer (S (dispatched w)) (User_verifyEmail_request (email data))).1;
      unfold caller; by rewrite <- !app_assoc.
Qed.

(** C10. [User.create] with [options.verifyEmail] set invokes the
    original callback exactly once.  If the creation request fails, the
    callback gets the creation error and no verification request goes
    out; if creation succeeds and the verification request fails, it
    gets the verification error and no creation response; if both
    succeed, it gets [(null, creation response)].  The verification
    response appears nowhere. *)
Theorem create_with_email_verification data (w : World) :
  wants_verification data = true →
  let r1 := User_create_request data in
  let r2 := User_verifyEmail_request (email data) in
  let created := answer (dispatched w) r1 in
  let verified := answer (S (dispatched w)) r2 in
  emitted w (User_create data caller w)
  = match created.1 with
    | Some createErr => [Sent r1; Invoked (Some createErr) None]
    | None =>
        match verified.1 with
        | Some verifyErr => [Sent r1; Sent r2; Invoked (Some verifyErr) None]
        | None => [Sent r1; Sent r2; Invoked None created.2]
        end
    end
  ∧ length (invocations (emitted w (User_create data caller w))) = 1.
Proof.
  intros Hv r1 r2 created verified.
  rewrite (User_create_verified_run data w Hv), emitted_app. cbn zeta.
  fold r1 r2 created verified. split; [done|].
  destruct created.1; [done|]. by destruct verified.1.
Qed.

Ltac run_once lem :=
  rewrite lem; cbn zeta; unfold caller; rewrite <- app_assoc, emitted_app.

Lemma every_request_once (P : Request -> Prop) (run : World -> World) w r err res :
  run w = w ++ [Sent r; Invoked err res] → P r → every_request P run w.
Proof.
  intros Hrun HP. unfold every_request. rewrite Hrun, emitted_app. cbn.
  split; [done|]. by constructor.
Qed.

Lemma every_request_create (P : Request -> Prop) data w :
  P (User_create_request data) →
  P (User_verifyEmail_request (email data)) →
  every_request P (User_create data caller) w.
Proof.
  intros H1 H2. destruct (wants_verification data) eqn:Hv.
  - unfold every_request. rewrite (User_create_verified_run data w Hv), emitted_app.
    cbn zeta.
    destruct (answer (dispatched w) (User_create_request data)).1;
      [|destruct (answer (S (dispatched w)) (User_verifyEmail_request (email data))).1];
      cbn; (split; [done|]); repeat constructor; done.
  - eapply every_request_once; [|exact H1].
    rewrite (User_create_plain_run data caller w Hv). cbn zeta. unfold caller.
    by rewrite <- app_assoc.
Qed.

Ltac single_request lem :=
  eapply every_request_once;
  [rewrite lem; cbn zeta; unfold caller; rewrite <- app_assoc; reflexivity|].

(** C5. The authorization mode is fixed per endpoint: every request of
    [requestToken], [refreshToken], [User.create] and [User.verifyEmail]
    carries Basic authorization with the configured credentials, and
    every request of [OAuth2.verify], [User.retrieve] and
    [User.deactivateReusableSignatures] carries Bearer authorization
    with the token the caller supplied. *)
Theorem authorization_per_endpoint (w : World) :
  let basic r :=
    header "Authorization" r = Some (HString ("Basic " +:+ credentials settings)) in
  let bearer token r :=
    header "Authorization" r = Some (HString ("Bearer " +:+ token)) in
  (∀ data, every_request basic (OAuth2_requestToken data caller) w)
  ∧ (∀ data, every_request basic (OAuth2_refreshToken data caller) w)
  ∧ (∀ data, every_request basic (User_create data caller) w)
  ∧ (∀ email, every_request basic (User_verifyEmail email caller) w)
  ∧ (∀ token, every_request (bearer token) (OAuth2_verify token caller) w)
  ∧ (∀ token, every_request (bearer token) (User_retrieve token caller) w)
  ∧ (∀ token,
       every_request (bearer token) (User_deactivateReusableSignatures token caller) w).
Proof.
  cbn zeta. split_and!; intros x.
  - single_request OAuth2_requestToken_run. apply build_authorization.
  - single_request OAuth2_refreshToken_run. apply build_authorization.
  - apply every_request_create; apply build_authorization.
  - single_request User_verifyEmail_run. apply build_authorization.
  - single_request OAuth2_verify_run. apply build_authorization.
  - single_request User_retrieve_run. apply build_authorization.
  - single_request User_deactivateReusableSignatures_run. apply build_authorization.
Qed.

Lemma form_content (dataStringified : string) :
  content_headers "application/x-www-form-urlencoded" (token_request dataStringified).
Proof.
  unfold content_headers, header, token_request, buildRequestOptions.
  cbn [req_options req_body].
  rewrite !build_keeps_header by done. cbn. unfold form_headers.
  split; by simplify_map_eq.
Qed.

Lemma json_content options_of (JSONData : string) kind verb route :
  options_of = buildRequestOptions
                 {| arg_method := verb; arg_path := route;
                    arg_authorization := kind;
                    arg_headers := Some (json_headers JSONData) |} →
  content_headers "application/json"
    {| req_options := options_of; req_body := JSONData |}.
Proof.
  intros ->. unfold content_headers, header, buildRequestOptions.
  cbn [req_options req_body].
  rewrite !build_keeps_header by done. cbn. unfold json_headers.
  split; by simplify_map_eq.
Qed.

(** C6. The content headers are the caller's: the builder passes
    [Content-Type] and [Content-Length] through as the intent has them,
    the token requests carry [application/x-www-form-urlencoded], the
    user requests with a body carry [application/json], and in each
    [Content-Length] is the byte length of the body written. *)
Theorem content_headers_per_endpoint (w : World) :
  (∀ intent target,
      opt_headers (RequestBuilder.build intent target) !! "Content-Type"
      = headers intent !! "Content-Type"
      ∧ opt_headers (RequestBuilder.build intent target) !! "Content-Length"
        = headers intent !! "Content-Length")
  ∧ (∀ data,
       every_request (content_headers "application/x-www-form-urlencoded")
         (OAuth2_requestToken data caller) w)
  ∧ (∀ data,
       every_request (content_headers "application/x-www-form-urlencoded")
         (OAuth2_refreshToken data caller) w)
  ∧ (∀ data,
       every_request (content_headers "application/json") (User_create data caller) w)
  ∧ (∀ email,
       every_request (content_headers "application/json")
         (User_verifyEmail email caller) w)
  ∧ (∀ token,
       every_request (content_headers "application/json")
         (User_deactivateReusableSignatures token caller) w).
Proof.
  split_and!; try (intros; split; by apply build_keeps_header); intros x.
  - single_request OAuth2_requestToken_run. apply form_content.
  - single_request OAuth2_refreshToken_run. apply form_content.
  - apply every_request_create; by eapply json_content.
  - single_request User_verifyEmail_run. by eapply json_content.
  - single_request User_deactivateReusableSignatures_run. by eapply json_content.
Qed.

(** C1 (amended). For the payload [{username: "u@x.com", password: "p"}]
    without a grant type, [requestToken] puts one request on the wire:
    [POST /oauth2/token] with Basic authorization, whose body is the
    form encoding of the payload with the [%40] of the user name turned
    back into [@]. *)
Theorem requestToken_scenario (w : World) :
  let data := [("username", JSString "u@x.com"); ("password", JSString "p")] in
  let r := OAuth2_requestToken_request data in
  requests (emitted w (OAuth2_requestToken data caller w)) = [r]
  ∧ opt_method (req_options r) = POST
  ∧ opt_path (req_options r) = "/oauth2/token"
  ∧ header "Authorization" r = Some (HString ("Basic " +:+ credentials settings))
  ∧ QS.stringify (OAuth2Payload.requestToken_dataCopy data)
    = "grant_type=password&username=u%40x.com&password=p"
  ∧ req_body r = "grant_type=password&username=u@x.com&password=p".
Proof.
  cbn zeta. split_and!;
    [run_once OAuth2_requestToken_run; reflexivity | reflexivity | reflexivity
    |apply build_authorization | reflexivity | reflexivity].
Qed.

(** ** Strings *)

Lemma app_cons_s c (a b : string) : String c a +:+ b = String c (a +:+ b).
Proof. reflexivity. Qed.

Lemma starts_with_app pat rest : Str.starts_with pat (pat +:+ rest) = true.
Proof.
  induction pat as [|c pat IH]; [done|].
  rewrite app_cons_s. cbn. by rewrite Ascii.eqb_refl, IH.
Qed.

Lemma skip_app pat rest : Str.skip (String.length pat) (pat +:+ rest) = rest.
Proof. induction pat as [|c pat IH]; [by destruct rest|]. by rewrite app_cons_s. Qed.

Lemma starts_with_split pat s :
  Str.starts_with pat s = true → s = pat +:+ Str.skip (String.length pat) s.
Proof.
  revert s. induction pat as [|c pat IH]; intros [|d s]; cbn; try done.
  intros [Hc Hs]%andb_true_iff. apply Ascii.eqb_eq in Hc as ->.
  rewrite app_cons_s. f_equal. by apply IH.
Qed.

Lemma starts_with_iff pat s :
  Str.starts_with pat s = true ↔ ∃ rest, s = pat +:+ rest.
Proof.
  split.
  - intros H. eexists. by apply starts_with_split.
  - intros [rest ->]. apply starts_with_app.
Qed.

Lemma starts_with_longer pat a b :
  Str.starts_with pat a = true → Str.starts_with pat (a +:+ b) = true.
Proof.
  intros [rest ->]%starts_with_iff. rewrite app_assoc_s. apply starts_with_app.
Qed.

Lemma starts_with_shorter pat a b :
  Str.starts_with pat (a +:+ b) = false → Str.starts_with pat a = false.
Proof.
  intros H. destruct (Str.starts_with pat a) eqn:Ha; [|done].
  by rewrite (starts_with_longer _ _ b Ha) in H.
Qed.

(** No occurrence of [%40] can begin before an [@] and reach past it. *)
Lemma no_occurrence_across a post :
  Str.starts_with "%40" a = false →
  Str.starts_with "%40" (a +:+ String "@" post) = false.
Proof.
  by destruct a as [|x [|y [|z a]]].
Qed.

Lemma occurrences_before_at pre post :
  Str.occurrences "%40" pre = 0 →
  Str.occurrences "%40" (pre +:+ String "@" post) = Str.occurrences "%40" post.
Proof.
  induction pre as [|c pre IH]; [done|].
  intros H. rewrite app_cons_s.
  change (Str.occurrences "%40" (String c pre))
    with ((if Str.starts_with "%40" (String c pre) then 1 else 0)
          + Str.occurrences "%40" pre) in H.
  change (Str.occurrences "%40" (String c (pre +:+ String "@" post)))
    with ((if Str.starts_with "%40" (String c pre +:+ String "@" post) then 1 else 0)
          + Str.occurrences "%40" (pre +:+ String "@" post)).
  destruct (Str.starts_with "%40" (String c pre)) eqn:Hc; [lia|].
  rewrite (no_occurrence_across _ post Hc), IH; lia.
Qed.

Lemma occurrences_after_match post :
  Str.occurrences "%40" ("%40" +:+ post) = S (Str.occurrences "%40" post).
Proof. reflexivity. Qed.

(** [replace] rewrites the leftmost occurrence and nothing else. *)
Lemma replace_first s :
  (1 ≤ Str.occurrences "%40" s)%nat → first_restored s (Str.replace "%40" "@" s).
Proof.
  unfold first_restored. induction s as [|c s IH]; [cbn; lia|]. intros H.
  destruct (Str.starts_with "%40" (String c s)) eqn:Hc.
  - pose proof (starts_with_split _ _ Hc) as Hs. cbn [String.length] in Hs.
    assert (Str.replace "%40" "@" (String c s) = "@" +:+ Str.skip 3 (String c s)) as ->.
    { cbn [Str.replace]. by rewrite Hc. }
    clear IH H Hc. revert Hs. generalize (Str.skip 3 (String c s)).
    intros rest ->. exists "", rest. rewrite occurrences_after_match.
    split_and!; try done; [lia|].
    change ("@" +:+ ?x) with ("" +:+ String "@" x).
    rewrite occurrences_before_at by done. lia.
  - assert (Str.occurrences "%40" (String c s) = Str.occurrences "%40" s) as Ho.
    { cbn [Str.occurrences]. by rewrite Hc. }
    rewrite Ho in *.
    destruct (IH H) as (pre & post & Hs & Hpre & Hbody & Hpost & Hcount).
    exists (String c pre), post.
    assert (Str.replace "%40" "@" (String c s) = String c (Str.replace "%40" "@" s)) as ->.
    { cbn [Str.replace]. by rewrite Hc. }
    assert (Str.starts_with "%40" (String c pre) = false) as Hpc.
    { apply (starts_with_shorter _ _ ("%40" +:+ post)).
      by rewrite app_cons_s, <- Hs. }
    split_and!.
    + by rewrite app_cons_s, <- Hs.
    + cbn [Str.occurrences]. rewrite Hpc. lia.
    + by rewrite app_cons_s, <- Hbody.
    + done.
    + rewrite Hbody.
      change (String c (pre +:+ "@" +:+ post)) with (String c pre +:+ String "@" post).
      rewrite occurrences_before_at.
      * lia.
      * cbn [Str.occurrences]. rewrite Hpc. lia.
Qed.

(** C9. In [requestToken] and [refreshToken] only the first [%40] of
    the form encoding is turned into [@]: when the encoding of the
    payload has two occurrences or more, the body on the wire is the
    encoding with the leftmost one replaced, every later one is still
    there as [%40], and so the body still holds one at least. *)
Theorem only_first_percent40_restored data (w : World) :
  ((2 ≤ Str.occurrences "%40" (QS.stringify (OAuth2Payload.requestToken_dataCopy data)))%nat →
   ∃ sent,
     List.map req_body (requests (emitted w (OAuth2_requestToken data caller w))) = [sent]
     ∧ first_restored (QS.stringify (OAuth2Payload.requestToken_dataCopy data)) sent
     ∧ (1 ≤ Str.occurrences "%40" sent)%nat)
  ∧ ((2 ≤ Str.occurrences "%40" (QS.stringify (OAuth2Payload.refreshToken_dataCopy data)))%nat →
     ∃ sent,
       List.map req_body (requests (emitted w (OAuth2_refreshToken data caller w))) = [sent]
       ∧ first_restored (QS.stringify (OAuth2Payload.refreshToken_dataCopy data)) sent
       ∧ (1 ≤ Str.occurrences "%40" sent)%nat).
Proof.
  split; intros H.
  - exists (OAuth2Payload.dataStringified (OAuth2Payload.requestToken_dataCopy data)).
    split; [run_once OAuth2_requestToken_run; reflexivity|].
    destruct (replace_first (QS.stringify (OAuth2Payload.requestToken_dataCopy data)))
      as (pre & post & ? & ? & ? & ? & Hn); [lia|].
    split; [by exists pre, post|]. unfold OAuth2Payload.dataStringified. lia.
  - exists (OAuth2Payload.dataStringified (OAuth2Payload.refreshToken_dataCopy data)).
    split; [run_once OAuth2_refreshToken_run; reflexivity|].
    destruct (replace_first (QS.stringify (OAuth2Payload.refreshToken_dataCopy data)))
      as (pre & post & ? & ? & ? & ? & Hn); [lia|].
    split; [by exists pre, post|]. unfold OAuth2Payload.dataStringified. lia.
Qed.

(** ** Objects *)

Lemma get_None k o : Obj.get k o = None ↔ k ∉ Obj.keys o.
Proof.
  induction o as [|[k' v'] o IH]; cbn.
  - split; [intros _; apply not_elem_of_nil|done].
  - rewrite not_elem_of_cons. destruct (String.eqb_spec k' k) as [->|Hne].
    + split; [done|]. by intros [? _].
    + rewrite IH. split; [intros ?; split; [congruence|done]|by intros [_ ?]].
Qed.

Ltac by_name_cases :=
  repeat match goal with
         | |- context [String.eqb ?a ?b] => destruct (String.eqb_spec a b); subst
         | H : context [String.eqb ?a ?b] |- _ => destruct (String.eqb_spec a b); subst
         end;
  repeat case_decide; subst; cbn; try congruence; try done.

Lemma get_overwrite k v o k' :
  Obj.get k' (Obj.overwrite k v o)
  = if decide (k = k') then (λ _, v) <$> Obj.get k o else Obj.get k' o.
Proof.
  induction o as [|[k0 v0] o IH]; cbn.
  - by case_decide.
  - destruct (String.eqb_spec k0 k) as [->|Hne]; cbn; [|rewrite IH]; by_name_cases.
Qed.



Lemma get_insert_index n k v o k' :
  Obj.get k o = None →
  Obj.get k' (Obj.insert_index n k v o)
  = if decide (k = k') then Some v else Obj.get k' o.
Proof.
  induction o as [|[k0 v0] o IH]; cbn.
  - intros _. by_name_cases.
  - destruct (String.eqb_spec k0 k) as [->|Hne]; [done|]. intros Hk.
    destruct (Obj.array_index k0) as [n'|]; [destruct (n' <? n)%N|]; cbn;
      rewrite ?(IH Hk); by_name_cases.
Qed.

Lemma get_app_end k v o k' :
  Obj.get k o = None →
  Obj.get k' (o ++ [(k, v)]) = if decide (k = k') then Some v else Obj.get k' o.
Proof.
  induction o as [|[k0 v0] o IH]; cbn.
  - intros _. by_name_cases.
  - destruct (String.eqb_spec k0 k) as [->|Hne]; [done|]. intros Hk.
    rewrite (IH Hk). by_name_cases.
Qed.

(** Reading after writing. *)
Lemma get_set k v o k' :
  k' ≠ "__proto__" →
  Obj.get k' (Obj.set k v o) = if decide (k = k') then Some v else Obj.get k' o.
Proof.
  intros Hplain. unfold Obj.set. destruct (Obj.get k o) as [v0|] eqn:Hk.
  - rewrite get_overwrite, Hk. by case_decide.
  - destruct (String.eqb_spec k "__proto__") as [->|_]; [by case_decide|].
    destruct (Obj.array_index k); [by apply get_insert_index|by apply get_app_end].
Qed.



Lemma get_assign_other k target source :
  k ≠ "__proto__" →
  k ∉ Obj.keys source → Obj.get k (Obj.assign target source) = Obj.get k target.
Proof.
  intros Hplain. unfold Obj.assign. revert target.
  induction source as [|[k0 v0] source IH]; intros target Hk; cbn; [done|].
  cbn in Hk. apply not_elem_of_cons in Hk as [Hne Hk].
  rewrite (IH _ Hk), get_set by done. by case_decide.
Qed.

(** [Object.assign]: the source's value where it has one, the target's
    otherwise. *)
Lemma get_assign k target source :
  k ≠ "__proto__" →
  Obj.wf source →
  Obj.get k (Obj.assign target source)
  = match Obj.get k source with
    | Some v => Some v
    | None => Obj.get k target
    end.
Proof.
  intros Hplain. unfold Obj.wf. revert target.
  induction source as [|[k0 v0] source IH]; intros target Hwf; [done|].
  cbn in Hwf. apply NoDup_cons in Hwf as [Hfresh Hwf].
  change (Obj.assign target ((k0, v0) :: source))
    with (Obj.assign (Obj.set k0 v0 target) source).
  cbn [Obj.get]. destruct (String.eqb_spec k0 k) as [->|Hne].
  - rewrite get_assign_other by done. rewrite get_set by done. by case_decide.
  - rewrite (IH _ Hwf), get_set by done. by case_decide.
Qed.

(** A write to [__proto__] never makes an own property of it. *)
Lemma assign_no_proto target source :
  Obj.get "__proto__" target = None →
  Obj.get "__proto__" (Obj.assign target source) = None.
Proof.
  unfold Obj.assign. revert target.
  induction source as [|[k v] source IH]; intros target Hnone; [done|].
  cbn [fold_left]. apply IH. cbn [fst snd]. unfold Obj.set.
  destruct (Obj.get k target) as [v0|] eqn:Hk.
  - rewrite get_overwrite. case_decide; [subst; congruence|done].
  - destruct (String.eqb_spec k "__proto__") as [->|Hne]; [done|].
    destruct (Obj.array_index k).
    + rewrite get_insert_index by done. by case_decide.
    + rewrite get_app_end by done. by case_decide.
Qed.

(** ** The command line *)

Lemma includes_elem_of x l : RemoveDocument.includes x l = true ↔ x ∈ l.
Proof.
  unfold RemoveDocument.includes. rewrite existsb_exists. split.
  - intros (y & Hy & ->%String.eqb_eq). by apply list_elem_of_In.
  - intros Hx. exists x. split; [by apply list_elem_of_In|apply String.eqb_refl].
Qed.

(** ** More on the form encoding *)

Lemma occurrences_char_app c (a b : string) :
  Str.occurrences (String c "") (a +:+ b)
  = Str.occurrences (String c "") a + Str.occurrences (String c "") b.
Proof.
  induction a as [|x a IH]; [done|].
  rewrite app_cons_s. cbn [Str.occurrences Str.starts_with]. rewrite IH. lia.
Qed.

Lemma occurrences_char_cons c x (s : string) :
  Str.occurrences (String c "") (String x s)
  = (if Ascii.eqb c x then 1 else 0) + Str.occurrences (String c "") s.
Proof. cbn. by rewrite andb_true_r. Qed.

(** A pattern that occurs nowhere leaves the string as it is. *)
Lemma replace_absent pat rep s :
  Str.occurrences pat s = 0 → Str.replace pat rep s = s.
Proof.
  induction s as [|c s IH]; cbn [Str.occurrences Str.replace];
    destruct (Str.starts_with pat _) eqn:Hp; try lia; [done|].
  intros H. by rewrite IH by lia.
Qed.

Lemma replace_char_first c rep pre post :
  Str.occurrences (String c "") pre = 0 →
  Str.replace (String c "") rep (pre +:+ String c post) = pre +:+ rep +:+ post.
Proof.
  induction pre as [|x pre IH].
  - intros _. change (Str.replace (String c "") rep (String c post) = rep +:+ post).
    cbn [Str.replace Str.starts_with]. by rewrite Ascii.eqb_refl.
  - rewrite occurrences_char_cons, !app_cons_s. intros H.
    cbn [Str.replace Str.starts_with].
    destruct (Ascii.eqb c x); [lia|]. cbn. by rewrite IH by lia.
Qed.

Lemma ascii_bounded c : (N_of_ascii c < 256)%N.
Proof. destruct c as [[] [] [] [] [] [] [] []]; reflexivity. Qed.

Lemma hex_digit_unreserved n :
  (n < 16)%N → QueryString.unreserved (QueryString.hex_digit n) = true.
Proof.
  intros H.
  assert (n ∈ (N.of_nat <$> seq 0 16)) as Hn.
  { apply list_elem_of_fmap. exists (N.to_nat n). split; [lia|].
    apply list_elem_of_In, in_seq. lia. }
  cbn in Hn. repeat (apply elem_of_cons in Hn as [->|Hn]; [reflexivity|]).
  by apply elem_of_nil in Hn.
Qed.

(** [querystring.escape] lets a character through only if it is
    unreserved; everything else becomes a [%] and two hexadecimal
    digits. *)
Lemma escape_hides c s :
  QueryString.unreserved c = false → c ≠ "%"%char →
  Str.occurrences (String c "") (QueryString.escape s) = 0.
Proof.
  intros Hc Hpercent. induction s as [|x s IH]; [done|].
  cbn [QueryString.escape]. destruct (QueryString.unreserved x) eqn:Hx.
  - rewrite occurrences_char_cons, IH.
    destruct (Ascii.eqb_spec c x) as [->|]; [congruence|done].
  - unfold QueryString.percent. rewrite !app_cons_s, !occurrences_char_cons.
    change ("" +:+ QueryString.escape s) with (QueryString.escape s). rewrite IH.
    pose proof (ascii_bounded x) as Hb.
    destruct (Ascii.eqb_spec c "%"); [done|].
    destruct (Ascii.eqb_spec c (QueryString.hex_digit (N_of_ascii x / 16))) as [->|].
    { rewrite hex_digit_unreserved in Hc; [done|]. apply N.Div0.div_lt_upper_bound. lia. }
    destruct (Ascii.eqb_spec c (QueryString.hex_digit (N_of_ascii x mod 16))) as [->|].
    { rewrite hex_digit_unreserved in Hc; [done|]. apply N.mod_lt. lia. }
    done.
Qed.

Lemma field_counts c kv :
  QueryString.unreserved c = false → c ≠ "%"%char →
  Str.occurrences (String c "") (QS.field kv) = if Ascii.eqb c "=" then 1 else 0.
Proof.
  intros Hc Hp. unfold QS.field.
  rewrite !occurrences_char_app, !escape_hides by done. cbn.
  rewrite andb_true_r. lia.
Qed.

Lemma join_counts c sep (l : list string) n :
  Forall (λ f, Str.occurrences (String c "") f = n) l →
  Str.occurrences (String c "") (Str.join sep l)
  = n * length l + Str.occurrences (String c "") sep * (length l - 1).
Proof.
  induction 1 as [|f l Hf Hl IH]; [cbn; lia|].
  destruct l as [|g l]; [cbn [Str.join length]; rewrite Hf; nia|].
  change (Str.join sep (f :: g :: l)) with (f +:+ sep +:+ Str.join sep (g :: l)).
  rewrite !occurrences_char_app, IH, Hf. cbn [length]. nia.
Qed.

Lemma stringify_counts c (o : JSObject) :
  QueryString.unreserved c = false → c ≠ "%"%char →
  Str.occurrences (String c "") (QS.stringify o)
  = (if Ascii.eqb c "=" then 1 else 0) * length o
    + (if Ascii.eqb c "&" then 1 else 0) * (length o - 1).
Proof.
  intros Hc Hp. unfold QS.stringify, QS.fields.
  rewrite (join_counts c "&" _ (if Ascii.eqb c "=" then 1 else 0)).
  - rewrite length_map, occurrences_char_cons. cbn [Str.occurrences Str.starts_with].
    by rewrite Nat.add_0_r.
  - apply Forall_forall. intros f Hf.
    apply list_elem_of_In, in_map_iff in Hf as (kv & <- & _). by apply field_counts.
Qed.

(** The separators of the body are those of the encoding: the
    substitution touches neither [&] nor [=]. *)
Lemma replace_keeps_count c s :
  c ≠ "%"%char → c ≠ "4"%char → c ≠ "0"%char → c ≠ "@"%char →
  Str.occurrences (String c "") (Str.replace "%40" "@" s)
  = Str.occurrences (String c "") s.
Proof.
  intros H1 H2 H3 H4.
  destruct (Str.occurrences "%40" s) as [|n] eqn:Hn.
  - by rewrite replace_absent.
  - destruct (replace_first s) as (pre & post & -> & _ & -> & _); [lia|].
    rewrite !occurrences_char_app, !occurrences_char_cons. cbn.
    by_name_cases.
    repeat match goal with
           | |- context [Ascii.eqb ?a ?b] => destruct (Ascii.eqb_spec a b); [done|]
           end.
    done.
Qed.


Lemma length_app_s (a b : string) :
  String.length (a +:+ b) = String.length a + String.length b.
Proof. induction a as [|x a IH]; [done|]. rewrite app_cons_s. cbn. by rewrite IH. Qed.

Lemma stringify_no_at (o : JSObject) : Str.occurrences "@" (QS.stringify o) = 0.
Proof. by rewrite stringify_counts. Qed.

(** X1. The substitution of [requestToken] and [refreshToken] loses
    nothing: the form encoding never holds an [@] of its own, so the
    body on the wire has one [@] at most, and putting [%40] back in its
    place gives the encoding again. *)
Theorem at_sign_substitution_reversible (data : JSObject) :
  let sent_request := req_body (OAuth2_requestToken_request data) in
  let sent_refresh := req_body (OAuth2_refreshToken_request data) in
  (Str.occurrences "@" sent_request ≤ 1)%nat
  ∧ Str.replace "@" "%40" sent_request
    = QS.stringify (OAuth2Payload.requestToken_dataCopy data)
  ∧ (Str.occurrences "@" sent_refresh ≤ 1)%nat
  ∧ Str.replace "@" "%40" sent_refresh
    = QS.stringify (OAuth2Payload.refreshToken_dataCopy data).
Proof.
  assert (∀ o, (Str.occurrences "@" (OAuth2Payload.dataStringified o) ≤ 1)%nat
               ∧ Str.replace "@" "%40" (OAuth2Payload.dataStringified o)
                 = QS.stringify o) as Hgen.
  { intros o. unfold OAuth2Payload.dataStringified.
    pose proof (stringify_no_at o) as Hat.
    destruct (Str.occurrences "%40" (QS.stringify o)) as [|n] eqn:Hn.
    - rewrite (replace_absent "%40") by done. rewrite Hat.
      split; [lia|]. by apply replace_absent.
    - destruct (replace_first (QS.stringify o)) as (pre & post & Henc & _ & -> & _); [lia|].
      rewrite Henc, !occurrences_char_app in Hat.
      rewrite occurrences_char_app, occurrences_char_app.
      change "@" with (String "@"%char "") at 2.
      rewrite occurrences_char_cons. cbn [Str.occurrences Str.starts_with].
      rewrite Ascii.eqb_refl. split; [lia|].
      change (pre +:+ "@" +:+ post) with (pre +:+ String "@" post).
      rewrite replace_char_first by lia. by rewrite Henc. }
  cbn zeta. split_and!; apply Hgen.
Qed.

(** X3. The body length announced for a token request is that of the
    plain form encoding when it holds no [%40], and two less when it
    does; without a [%40] the body is the plain encoding itself. *)
Theorem token_body_length (o : JSObject) :
  let encoding := QS.stringify o in
  let sent := OAuth2Payload.dataStringified o in
  header "Content-Length" (token_request sent)
  = Some (HNumber (String.length encoding
                   - if (Str.occurrences "%40" encoding =? 0)%nat then 0 else 2))
  ∧ (if (Str.occurrences "%40" encoding =? 0)%nat then sent = encoding
     else sent ≠ encoding).
Proof.
  cbn zeta. destruct (form_content (OAuth2Payload.dataStringified o)) as [_ ->].
  unfold token_request. cbn [req_body]. unfold OAuth2Payload.dataStringified.
  destruct (Str.occurrences "%40" (QS.stringify o)) as [|n] eqn:Hn; cbn [Nat.eqb].
  - rewrite replace_absent by done. split; [|done]. do 2 f_equal. lia.
  - destruct (replace_first (QS.stringify o)) as (pre & post & Henc & _ & -> & _); [lia|].
    rewrite Henc, !length_app_s. cbn [String.length]. split; [do 2 f_equal; lia|].
    intros Heq. apply (f_equal String.length) in Heq.
    rewrite !length_app_s in Heq. cbn in Heq. lia.
Qed.


Lemma hex_digit_inj x y :
  (x < 16)%N → (y < 16)%N →
  QueryString.hex_digit x = QueryString.hex_digit y → x = y.
Proof.
  intros Hx Hy Heq. apply (f_equal N_of_ascii) in Heq. revert Heq.
  unfold QueryString.hex_digit.
  destruct (N.ltb_spec x 10), (N.ltb_spec y 10);
    rewrite !N_ascii_embedding by lia; lia.
Qed.

Lemma percent_inj c d : QueryString.percent c = QueryString.percent d → c = d.
Proof.
  unfold QueryString.percent. intros Heq.
  injection Heq as Hhigh Hlow.
  pose proof (ascii_bounded c). pose proof (ascii_bounded d).
  apply hex_digit_inj in Hhigh; [|apply N.Div0.div_lt_upper_bound; lia..].
  apply hex_digit_inj in Hlow; [|apply N.mod_lt; lia..].
  rewrite <- (ascii_N_embedding c), <- (ascii_N_embedding d). f_equal.
  rewrite (N.div_mod (N_of_ascii c) 16), (N.div_mod (N_of_ascii d) 16) by lia.
  by rewrite Hhigh, Hlow.
Qed.

Lemma escape_same_text (a b : string) :
  QueryString.escape a = QueryString.escape b → a = b.
Proof.
  revert b. induction a as [|c a IH]; intros [|d b]; cbn [QueryString.escape].
  - done.
  - destruct (QueryString.unreserved d); [done|].
    unfold QueryString.percent. by rewrite !app_cons_s.
  - destruct (QueryString.unreserved c); [done|].
    unfold QueryString.percent. by rewrite !app_cons_s.
  - destruct (QueryString.unreserved c) eqn:Hc, (QueryString.unreserved d) eqn:Hd.
    + intros [= -> Heq]. f_equal. by apply IH.
    + unfold QueryString.percent. rewrite !app_cons_s. intros [= -> _]. done.
    + unfold QueryString.percent. rewrite !app_cons_s. intros [= <- _]. done.
    + intros Heq.
      assert (QueryString.percent c = QueryString.percent d
              ∧ QueryString.escape a = QueryString.escape b) as [Hp Ht].
      { revert Heq. unfold QueryString.percent. rewrite !app_cons_s.
        intros [= H1 H2 H3]. by rewrite H1, H2. }
      f_equal; [by apply percent_inj|by apply IH].
Qed.

(** X4. [querystring.escape] is lossless: two texts with the same
    escaped form are the same text. *)
Theorem escape_injective (a b : string) :
  QueryString.escape a = QueryString.escape b → a = b.
Proof. intros Heq. by apply escape_same_text. Qed.


(** ** More on [Object.assign] *)

Lemma keys_app (a b : JSObject) : Obj.keys (a ++ b) = Obj.keys a ++ Obj.keys b.
Proof. apply List.map_app. Qed.

Lemma ordered_before t kv d :
  Obj.ordered (t ++ kv :: d) = true →
  Forall (λ kv', Obj.precedes kv'.1 kv.1 = true) t.
Proof.
  induction t as [|a t IH]; [constructor|].
  cbn [app Obj.ordered]. intros [Ha Ht]%andb_true_iff.
  rewrite forallb_app in Ha. apply andb_true_iff in Ha as [_ Ha].
  cbn in Ha. apply andb_true_iff in Ha as [Ha _]. constructor; [done|by apply IH].
Qed.

Lemma insert_index_end n k v t :
  Obj.array_index k = Some n →
  Forall (λ kv', Obj.precedes kv'.1 k = true) t →
  Obj.insert_index n k v t = t ++ [(k, v)].
Proof.
  intros Hk. induction 1 as [|[k' v'] t Hp Ht IH]; [done|].
  cbn [Obj.insert_index app]. unfold Obj.precedes in Hp. cbn in Hp. rewrite Hk in Hp.
  destruct (Obj.array_index k') as [n'|]; [|done]. rewrite Hp. by rewrite IH.
Qed.

Lemma absent_all k (o : JSObject) :
  Obj.get k o = None → Forall (λ kv, kv.1 ≠ k) o.
Proof.
  intros Hk%get_None. apply Forall_forall. intros [k' v'] Hin Heq.
  cbn in Heq. subst k'. apply Hk. apply list_elem_of_In, in_map_iff.
  exists (k, v'). split; [done|by apply list_elem_of_In].
Qed.

(** Writing the properties of an object in enumeration order after
    those of another, none of whose names it shares, appends them. *)
Lemma assign_appends t d :
  Obj.wf (t ++ d) → Obj.ordered (t ++ d) = true →
  Forall (λ kv, kv.1 ≠ "__proto__") d →
  Obj.assign t d = t ++ d.
Proof.
  intros Hwf Hord Hplain. revert t Hwf Hord.
  induction Hplain as [|[k v] d Hk Hd IH]; intros t Hwf Hord.
  - by rewrite app_nil_r.
  - change (Obj.assign t ((k, v) :: d)) with (Obj.assign (Obj.set k v t) d).
    assert (Obj.set k v t = t ++ [(k, v)]) as ->.
    { unfold Obj.wf in Hwf. rewrite keys_app in Hwf.
      apply NoDup_app in Hwf as (_ & Hfresh & _).
      assert (Obj.get k t = None) as Hnone.
      { apply get_None. intros Hin. apply (Hfresh k Hin). cbn. left. }
      unfold Obj.set. rewrite Hnone. cbn in Hk.
      destruct (String.eqb_spec k "__proto__") as [|_]; [done|].
      destruct (Obj.array_index k) as [i|] eqn:Hi; [|done].
      apply insert_index_end; [done|]. apply (ordered_before t (k, v) d Hord). }
    rewrite IH; rewrite <- app_assoc; done.
Qed.

(** X5. Apart from the grant type, the object that is encoded has the
    payload's properties and values and no others, in both token
    operations; the one name that is not carried over is [__proto__],
    which is never a property of the copy. *)
Theorem token_payload_passed_through (data : JSObject) (name : string) :
  Obj.wf data → name ≠ "grant_type" → name ≠ "__proto__" →
  Obj.get name (OAuth2Payload.requestToken_dataCopy data) = Obj.get name data
  ∧ Obj.get name (OAuth2Payload.refreshToken_dataCopy data) = Obj.get name data
  ∧ Obj.get "__proto__" (OAuth2Payload.requestToken_dataCopy data) = None
  ∧ Obj.get "__proto__" (OAuth2Payload.refreshToken_dataCopy data) = None.
Proof.
  intros Hwf Hname Hplain.
  unfold OAuth2Payload.requestToken_dataCopy, OAuth2Payload.refreshToken_dataCopy.
  split_and!.
  - rewrite (get_assign _ _ _ Hplain Hwf). destruct (Obj.get name data); [done|].
    cbn [Obj.get]. by destruct (String.eqb_spec "grant_type" name).
  - rewrite get_assign by (done || apply NoDup_singleton). cbn [Obj.get].
    destruct (String.eqb_spec "grant_type" name); [done|].
    rewrite (get_assign _ _ _ Hplain Hwf). by destruct (Obj.get name data).
  - by apply assign_no_proto.
  - do 2 apply assign_no_proto. done.
Qed.

(** X6. [refreshToken] keeps the order of the payload: the copy of a
    payload without a grant type and without a [__proto__] property is
    the payload itself with the grant type as its last property, so the
    fields encoded are the payload's followed by the grant type
    field. *)
Theorem refreshToken_appends_grant_type (data : JSObject) :
  Obj.wf data → Obj.ordered data = true →
  Obj.get "grant_type" data = None → Obj.get "__proto__" data = None →
  Obj.assign [] data = data
  ∧ OAuth2Payload.refreshToken_dataCopy data
    = data ++ [("grant_type", JSString "refresh_token")]
  ∧ QS.fields (OAuth2Payload.refreshToken_dataCopy data)
    = QS.fields data ++ ["grant_type=refresh_token"].
Proof.
  intros Hwf Hord Hnone Hplain.
  assert (Obj.assign [] data = data) as Hcopy
    by (apply (assign_appends [] data); [done..|by apply absent_all]).
  unfold OAuth2Payload.refreshToken_dataCopy. rewrite Hcopy.
  assert (Obj.assign data [("grant_type", JSString "refresh_token")]
          = data ++ [("grant_type", JSString "refresh_token")]) as ->.
  { cbn. unfold Obj.set. by rewrite Hnone. }
  split_and!; [done..|]. unfold QS.fields. by rewrite List.map_app.
Qed.

(** X7. [requestToken] puts the default grant type first: for a payload
    without a grant type, without array-index names and without a
    [__proto__] property, the object that is encoded is the default
    followed by the payload as it stands. *)
Theorem requestToken_prepends_grant_type (data : JSObject) :
  Obj.wf data →
  Forall (λ kv, Obj.array_index kv.1 = None) data →
  Obj.get "grant_type" data = None → Obj.get "__proto__" data = None →
  OAuth2Payload.requestToken_dataCopy data = ("grant_type", JSString "password") :: data
  ∧ QS.fields (OAuth2Payload.requestToken_dataCopy data)
    = "grant_type=password" :: QS.fields data.
Proof.
  intros Hwf Hindex Hnone Hplain.
  assert (OAuth2Payload.requestToken_dataCopy data
          = ("grant_type", JSString "password") :: data) as ->; [|done].
  apply (assign_appends [("grant_type", JSString "password")] data).
  - unfold Obj.wf. cbn. apply NoDup_cons. split; [by apply get_None|done].
  - cbn [app Obj.ordered]. apply andb_true_iff. split.
    + apply forallb_forall. intros kv Hin.
      apply list_elem_of_In in Hin. rewrite Forall_forall in Hindex.
      unfold Obj.precedes. by rewrite (Hindex kv Hin).
    + clear Hwf Hnone Hplain. induction Hindex as [|kv d Hkv Hd IH]; [done|].
      cbn [Obj.ordered]. rewrite IH, andb_true_r.
      apply forallb_forall. intros kv' Hin.
      apply list_elem_of_In in Hin. rewrite Forall_forall in Hd.
      unfold Obj.precedes. by rewrite Hkv, (Hd kv' Hin).
  - by apply absent_all.
Qed.


(** ** The grant type on the wire *)














(** ** More on the runs of the wrappers *)

Lemma wants_verification_options (data : UserCreateParams) :
  wants_verification data
  = match options data with
    | Some o => truthy (verifyEmail o)
    | None => false
    end.
Proof.
  unfold wants_verification. destruct (options data) as [o|]; [|done].
  cbn. by destruct (verifyEmail o).
Qed.

(** X8. [User.create] sends no verification mail unless asked to: with
    no options, or with a [verifyEmail] that is absent or falsy, it puts
    the creation request alone on the wire and hands its outcome to the
    callback as it is, error or response. *)
Theorem create_without_verification (data : UserCreateParams) (w : World) :
  match options data with
  | Some o => truthy (verifyEmail o) = false
  | None => True
  end →
  emitted w (User_create data caller w)
  = [Sent (User_create_request data);
     Invoked (answer (dispatched w) (User_create_request data)).1
             (answer (dispatched w) (User_create_request data)).2].
Proof.
  intros Hoff.
  assert (wants_verification data = false) as Hv.
  { rewrite wants_verification_options. by destruct (options data). }
  run_once (User_create_plain_run data caller w Hv). reflexivity.
Qed.

(** X9. The two lookups, [OAuth2.verify] and [User.retrieve], are bare
    GET requests: nothing is written to the request, and it carries
    neither [Content-Type] nor [Content-Length]. *)
Theorem lookups_carry_no_content (token : string) (w : World) :
  let bare r :=
    opt_method (req_options r) = GET
    ∧ req_body r = ""
    ∧ header "Content-Type" r = None
    ∧ header "Content-Length" r = None in
  every_request bare (OAuth2_verify token caller) w
  ∧ every_request bare (User_retrieve token caller) w.
Proof.
  cbn zeta. split.
  - single_request OAuth2_verify_run.
    unfold header, OAuth2_verify_request, buildRequestOptions. cbn [req_options req_body].
    rewrite !build_keeps_header by done. done.
  - single_request User_retrieve_run.
    unfold header, User_retrieve_request, buildRequestOptions. cbn [req_options req_body].
    rewrite !build_keeps_header by done. done.
Qed.

(** X10. Each wrapper but [User.create] is one exchange: one request,
    to its own method and path on the host the configuration selects,
    and then one call of the callback with the outcome of that very
    request. *)
Theorem one_exchange_per_call (w : World) :
  let exchange (run : World → World) (r : Request) verb route :=
    emitted w (run w)
    = [Sent r; Invoked (answer (dispatched w) r).1 (answer (dispatched w) r).2]
    ∧ opt_method (req_options r) = verb
    ∧ opt_path (req_options r) = route
    ∧ opt_host (req_options r)
      = (if production settings then api_host else sandbox_api_host) in
  (∀ data, exchange (OAuth2_requestToken data caller)
             (OAuth2_requestToken_request data) POST "/oauth2/token")
  ∧ (∀ data, exchange (OAuth2_refreshToken data caller)
               (OAuth2_refreshToken_request data) POST "/oauth2/token")
  ∧ (∀ token, exchange (OAuth2_verify token caller)
                (OAuth2_verify_request token) GET "/oauth2/token")
  ∧ (∀ email, exchange (User_verifyEmail email caller)
                (User_verifyEmail_request email) POST "/user/verifyemail")
  ∧ (∀ token, exchange (User_retrieve token caller)
                (User_retrieve_request token) GET "/user")
  ∧ (∀ token, exchange (User_deactivateReusableSignatures token caller)
                (User_deactivateReusableSignatures_request token) PUT
                "/user/setting/no_user_signature_return").
Proof.
  cbn zeta. split_and!; intros x; (split; [|done]).
  - run_once OAuth2_requestToken_run. reflexivity.
  - run_once OAuth2_refreshToken_run. reflexivity.
  - run_once OAuth2_verify_run. reflexivity.
  - run_once User_verifyEmail_run. reflexivity.
  - run_once User_retrieve_run. reflexivity.
  - run_once User_deactivateReusableSignatures_run. reflexivity.
Qed.

(** X11. [User.create] puts one or two requests on the wire, the
    creation first and the verification, if any, second, both as POST to
    the configured host; the verification is for the address the
    account was created with. *)
Theorem create_requests (data : UserCreateParams) (w : World) :
  let sent := requests (emitted w (User_create data caller w)) in
  (sent = [User_create_request data]
   ∨ sent = [User_create_request data; User_verifyEmail_request (email data)])
  ∧ Forall (λ r, opt_method (req_options r) = POST
                 ∧ opt_host (req_options r)
                   = (if production settings then api_host else sandbox_api_host)) sent
  ∧ opt_path (req_options (User_create_request data)) = "/user"
  ∧ req_body (User_verifyEmail_request (email data))
    = Json.stringify [("email", email data)].
Proof.
  cbn zeta.
  assert (requests (emitted w (User_create data caller w)) = [User_create_request data]
          ∨ requests (emitted w (User_create data caller w))
            = [User_create_request data; User_verifyEmail_request (email data)]) as Hsent.
  { destruct (wants_verification data) eqn:Hv.
    - rewrite (User_create_verified_run data w Hv), emitted_app. cbn zeta.
      destruct (answer (dispatched w) (User_create_request data)).1; [by left|].
      destruct (answer (S (dispatched w)) (User_verifyEmail_request (email data))).1;
        by right.
    - left. run_once (User_create_plain_run data caller w Hv). reflexivity. }
  split_and!; [done| |done..].
  destruct Hsent as [-> | ->]; repeat constructor.
Qed.


(** ** The JSON bodies *)

Lemma stringify_first kv m (o : JSObject) :
  Json.member kv = Some m →
  Str.starts_with ("{" +:+ m) (Json.stringify (kv :: o)) = true.
Proof.
  intros Hm. unfold Json.stringify. cbn [omap list_omap]. rewrite Hm.
  destruct (omap Json.member o) as [|m' l].
  - cbn [Str.join]. rewrite <- app_assoc_s. apply starts_with_app.
  - change (Str.join "," (m :: m' :: l)) with (m +:+ "," +:+ Str.join "," (m' :: l)).
    rewrite <- !app_assoc_s, !app_assoc_s, <- (app_assoc_s "{" m). apply starts_with_app.
Qed.

(** X12. The trial is skipped unless it is asked for: the body of
    [User.create] opens with the member [skip_30day_trial], which is [0]
    when [options.startTrial] is truthy and [1] when it is falsy, absent,
    or when there are no options. *)
Theorem create_trial_flag (data : UserCreateParams) :
  let trial :=
    match options data with
    | Some o => truthy (startTrial o)
    | None => false
    end in
  Str.starts_with
    ("{" +:+ Json.quote "skip_30day_trial" +:+ ":" +:+ (if trial then "0" else "1"))
    (req_body (User_create_request data)) = true.
Proof.
  cbn zeta. unfold User_create_request. cbn [req_body]. unfold create_JSONData.
  assert (truthy (or_default (JSBoolean false)
                    (from_option startTrial JSUndefined (options data)))
          = match options data with
            | Some o => truthy (startTrial o)
            | None => false
            end) as ->.
  { destruct (options data) as [o|]; [|done]. cbn. by destruct (startTrial o). }
  destruct (match options data with Some o => truthy (startTrial o) | None => false end);
    by apply stringify_first.
Qed.

Lemma printable_app (a b : string) :
  Str.printable (a +:+ b) = Str.printable a && Str.printable b.
Proof.
  induction a as [|c a IH]; [done|]. rewrite app_cons_s. cbn. by rewrite IH, andb_assoc.
Qed.

Lemma quote_char_printable c : Str.printable (Json.quote_char c) = true.
Proof. destruct c as [[] [] [] [] [] [] [] []]; reflexivity. Qed.

Lemma quote_printable s : Str.printable (Json.quote s) = true.
Proof.
  assert (Str.printable (Json.quote_body s) = true) as Hbody.
  { induction s as [|c s IH]; [done|].
    cbn [Json.quote_body]. by rewrite printable_app, quote_char_printable, IH. }
  unfold Json.quote. cbn [Str.printable]. rewrite printable_app, Hbody. reflexivity.
Qed.

Lemma numeral_printable z : Str.printable (NilZero.string_of_int (Z.to_int z)) = true.
Proof.
  assert (∀ d, Str.printable (NilEmpty.string_of_uint d) = true) as Hd
    by (induction d; cbn; done).
  assert (∀ d, Str.printable (NilZero.string_of_uint d) = true) as Hz
    by (intros [| | | | | | | | | |]; try apply Hd; done).
  destruct (Z.to_int z); cbn; by rewrite ?Hz.
Qed.

Lemma member_printable kv m : Json.member kv = Some m → Str.printable m = true.
Proof.
  unfold Json.member.
  destruct kv.2 as [s|z|[]| |]; intros [= <-];
    by rewrite !printable_app, ?quote_printable, ?numeral_printable.
Qed.

Lemma join_printable sep (l : list string) :
  Str.printable sep = true → Forall (λ m, Str.printable m = true) l →
  Str.printable (Str.join sep l) = true.
Proof.
  intros Hsep. induction 1 as [|m l Hm Hl IH]; [done|].
  destruct l as [|m' l]; [done|].
  change (Str.join sep (m :: m' :: l)) with (m +:+ sep +:+ Str.join sep (m' :: l)).
  by rewrite !printable_app, Hm, Hsep, IH.
Qed.

Lemma stringify_printable (o : JSObject) : Str.printable (Json.stringify o) = true.
Proof.
  unfold Json.stringify. rewrite !printable_app, join_printable; [done..|].
  apply Forall_forall. intros m (kv & _ & Hm)%list_elem_of_omap.
  by apply (member_printable kv).
Qed.

(** X13. Whatever the values handed in, no raw control character goes
    out in a JSON body: line breaks, tabs and the like in an address, a
    password or a name are written as escapes. *)
Theorem json_bodies_printable (data : UserCreateParams) (address : JSValue)
  (token : string) :
  Str.printable (req_body (User_create_request data)) = true
  ∧ Str.printable (req_body (User_verifyEmail_request address)) = true
  ∧ Str.printable (req_body (User_deactivateReusableSignatures_request token)) = true.
Proof. split_and!; apply stringify_printable. Qed.


(** ** More on the command line *)

Lemma params_filter (l : list string) :
  filter (λ arg, negb (RemoveDocument.is_flag arg)) l
  = filter (λ arg, ¬ RemoveDocument.is_flag arg) l.
Proof. apply list_filter_iff. intros arg. apply negb_True. Qed.

(** X14. Every argument is read once: flags and parameters together are
    the arguments, the flags keep the order of the arguments and so do
    the parameters, and [--cancel-invites] is honoured exactly when it
    is among the arguments. *)
Theorem flags_and_params_partition (argv : list string) :
  RemoveDocument.flags argv ++ RemoveDocument.params argv ≡ₚ RemoveDocument.args argv
  ∧ length (RemoveDocument.flags argv) + length (RemoveDocument.params argv)
    = length (RemoveDocument.args argv)
  ∧ RemoveDocument.flags argv `sublist_of` RemoveDocument.args argv
  ∧ RemoveDocument.params argv `sublist_of` RemoveDocument.args argv
  ∧ (RemoveDocument.cancelInvites argv = true
     ↔ "--cancel-invites" ∈ RemoveDocument.args argv).
Proof.
  assert (RemoveDocument.flags argv ++ RemoveDocument.params argv
          ≡ₚ RemoveDocument.args argv) as Hperm.
  { unfold RemoveDocument.flags, RemoveDocument.params. rewrite params_filter.
    apply filter_app_complement. }
  split_and!.
  - done.
  - by rewrite <- Hperm, length_app.
  - apply sublist_filter.
  - apply sublist_filter.
  - unfold RemoveDocument.cancelInvites. rewrite includes_elem_of.
    unfold RemoveDocument.flags. rewrite list_elem_of_filter.
    split; [by intros [_ ?]|by intros ?; split].
Qed.

(** X15. Where a flag stands does not matter: putting an argument that
    begins with [--] anywhere among the others changes neither the
    parameters nor the credentials the client is configured with. *)
Theorem flag_position_irrelevant (node script flag : string) (before after : list string) :
  Str.starts_with "--" flag = true →
  RemoveDocument.params (node :: script :: before ++ flag :: after)
  = RemoveDocument.params (node :: script :: before ++ after)
  ∧ credentials (RemoveDocument.config (node :: script :: before ++ flag :: after))
    = credentials (RemoveDocument.config (node :: script :: before ++ after)).
Proof.
  intros Hflag.
  assert (RemoveDocument.params (node :: script :: before ++ flag :: after)
          = RemoveDocument.params (node :: script :: before ++ after)) as Hparams.
  { assert (∀ l, RemoveDocument.args (node :: script :: l) = l) as Hargs by done.
    unfold RemoveDocument.params. rewrite !Hargs.
    rewrite !filter_app, filter_cons_False; [done|].
    unfold RemoveDocument.is_flag. rewrite Hflag. by intros []. }
  split; [done|].
  unfold RemoveDocument.config, RemoveDocument.clientId, RemoveDocument.clientSecret.
  cbn [credentials]. by rewrite Hparams.
Qed.

(** X16. Nothing checks that the parameters are there: when every
    argument is a flag, the client is still configured, with the base64
    form of the text [undefined:undefined] for credentials. *)
Theorem missing_parameters_not_refused (argv : list string) :
  Forall (λ arg, Str.starts_with "--" arg = true) (RemoveDocument.args argv) →
  RemoveDocument.params argv = []
  ∧ credentials (RemoveDocument.config argv) = "dW5kZWZpbmVkOnVuZGVmaW5lZA=="
  ∧ RemoveDocument.token_data argv
    = [("username", JSUndefined); ("password", JSUndefined)].
Proof.
  intros Hall.
  assert (RemoveDocument.params argv = []) as Hnone.
  { unfold RemoveDocument.params. induction Hall as [|arg l Harg Hl IH]; [done|].
    rewrite filter_cons_False; [done|].
    unfold RemoveDocument.is_flag. rewrite Harg. by intros []. }
  split; [done|].
  unfold RemoveDocument.config, RemoveDocument.token_data, RemoveDocument.clientId,
    RemoveDocument.clientSecret, RemoveDocument.username, RemoveDocument.password.
  cbn [credentials]. by rewrite Hnone.
Qed.

(** X17. The token request of the command line: the form encoding of
    what it hands to [requestToken] is the default grant type, then the
    third parameter as user name and the fourth as password, each
    escaped, an absent one leaving its field empty. *)
Theorem command_line_token_encoding (argv : list string) :
  QS.stringify (OAuth2Payload.requestToken_dataCopy (RemoveDocument.token_data argv))
  = "grant_type=password&username="
    +:+ QueryString.escape (default "" (RemoveDocument.params argv !! 2))
    +:+ "&password="
    +:+ QueryString.escape (default "" (RemoveDocument.params argv !! 3)).
Proof.
  unfold RemoveDocument.token_data, RemoveDocument.username, RemoveDocument.password.
  by destruct (RemoveDocument.params argv !! 2), (RemoveDocument.params argv !! 3).
Qed.

(** ** Base64 *)

Lemma encode_bytes_length (l : list N) :
  String.length (Base64.encode_bytes l) = 4 * ((length l + 2) / 3).
Proof.
  assert (∀ n l, (length l ≤ n)%nat →
                 String.length (Base64.encode_bytes l) = 4 * ((length l + 2) / 3)) as H.
  { clear l. induction n as [|n IH]; intros [|a [|b [|c l]]] Hl; try done; cbn in Hl; try lia.
    cbn [Base64.encode_bytes String.length length]. rewrite IH by lia.
    replace (S (S (S (length l))) + 2) with (length l + 2 + 1 * 3) by lia.
    rewrite Nat.div_add by lia. lia. }
  by apply (H (length l)).
Qed.

(** X18. The credentials are padded base64: four characters for every
    three bytes of [client_id:client_secret], the last group filled
    up. *)
Theorem credentials_length (argv : list string) :
  String.length (credentials (RemoveDocument.config argv))
  = 4 * ((String.length (RemoveDocument.interpolate (RemoveDocument.clientId argv))
          + 1
          + String.length (RemoveDocument.interpolate (RemoveDocument.clientSecret argv))
          + 2) / 3).
Proof.
  unfold RemoveDocument.config. cbn [credentials]. unfold Base64.encode.
  rewrite encode_bytes_length. unfold Str.bytes. rewrite length_map.
  assert (∀ s, length (list_ascii_of_string s) = String.length s) as ->
    by (induction s as [|c s IH]; cbn; [done|by rewrite IH]).
  rewrite !length_app_s. cbn [String.length]. do 2 f_equal. lia.
Qed.


(** ** Reading the credentials back *)

Lemma pack_div h l m : (l < m)%N → ((h * m + l) / m = h)%N.
Proof. intros H. rewrite N.div_add_l by lia. rewrite N.div_small by done. lia. Qed.

Lemma pack_mod h l m : (l < m)%N → ((h * m + l) mod m = l)%N.
Proof. intros H. rewrite N.add_comm, N.Div0.mod_add. by apply N.mod_small. Qed.

Lemma unpack a m : m ≠ 0%N → (a / m * m + a mod m = a)%N.
Proof. intros H. rewrite (N.div_mod a m) at 3 by done. lia. Qed.

Lemma sextet_value_sextet n :
  (n < 64)%N → Base64.sextet_value (Base64.sextet n) = Some n.
Proof.
  intros H.
  assert (n ∈ (N.of_nat <$> seq 0 64)) as Hn.
  { apply list_elem_of_fmap. exists (N.to_nat n). split; [lia|].
    apply list_elem_of_In, in_seq. lia. }
  cbn in Hn. repeat (apply elem_of_cons in Hn as [->|Hn]; [reflexivity|]).
  by apply elem_of_nil in Hn.
Qed.

Lemma pad_value : Base64.sextet_value "=" = None.
Proof. reflexivity. Qed.

Lemma is_pad_pad : Base64.is_pad "=" = true.
Proof. reflexivity. Qed.

Lemma decode_encode_bytes (l : list N) :
  Forall (λ b, (b < 256)%N) l →
  Base64.decode_chars (list_ascii_of_string (Base64.encode_bytes l)) = Some l.
Proof.
  assert (∀ n l, (length l ≤ n)%nat → Forall (λ b, (b < 256)%N) l →
                 Base64.decode_chars (list_ascii_of_string (Base64.encode_bytes l))
                 = Some l) as H; [|by apply (H (length l))].
  clear l. induction n as [|n IH]; intros [|a [|b [|c l]]] Hlen Hl;
    try done; cbn [length] in Hlen; try lia.
  - apply Forall_cons in Hl as [Ha _].
    assert (a / 4 < 64)%N by (apply N.Div0.div_lt_upper_bound; lia).
    assert (a mod 4 < 4)%N by (apply N.mod_lt; lia).
    cbn [Base64.encode_bytes list_ascii_of_string Base64.decode_chars].
    rewrite !sextet_value_sextet by lia. rewrite !pad_value, !is_pad_pad.
    cbn [andb Base64.at_end]. rewrite N.div_mul by lia. by rewrite unpack by lia.
  - apply Forall_cons in Hl as [Ha [Hb _]%Forall_cons].
    assert (a / 4 < 64)%N by (apply N.Div0.div_lt_upper_bound; lia).
    assert (b / 16 < 16)%N by (apply N.Div0.div_lt_upper_bound; lia).
    assert (a mod 4 < 4)%N by (apply N.mod_lt; lia).
    assert (b mod 16 < 16)%N by (apply N.mod_lt; lia).
    cbn [Base64.encode_bytes list_ascii_of_string Base64.decode_chars].
    rewrite !sextet_value_sextet by lia. rewrite !pad_value, !is_pad_pad.
    cbn [andb Base64.at_end]. rewrite !pack_div, !pack_mod by lia.
    rewrite N.div_mul by lia. by rewrite !unpack by lia.
  - apply Forall_cons in Hl as [Ha [Hb [Hc Hl]%Forall_cons]%Forall_cons].
    assert (a / 4 < 64)%N by (apply N.Div0.div_lt_upper_bound; lia).
    assert (b / 16 < 16)%N by (apply N.Div0.div_lt_upper_bound; lia).
    assert (c / 64 < 4)%N by (apply N.Div0.div_lt_upper_bound; lia).
    assert (a mod 4 < 4)%N by (apply N.mod_lt; lia).
    assert (b mod 16 < 16)%N by (apply N.mod_lt; lia).
    assert (c mod 64 < 64)%N by (apply N.mod_lt; lia).
    cbn [Base64.encode_bytes list_ascii_of_string Base64.decode_chars].
    rewrite !sextet_value_sextet by lia. rewrite IH by (done || lia).
    cbn [mbind option_bind]. rewrite !pack_div, !pack_mod by lia.
    by rewrite !unpack by lia.
Qed.

(** Decoding what was encoded gives the text again. *)
Lemma decode_encode (s : string) : Base64.decode (Base64.encode s) = Some s.
Proof.
  unfold Base64.decode, Base64.encode. rewrite decode_encode_bytes.
  - cbn [mbind option_bind]. f_equal. unfold Str.bytes. rewrite List.map_map.
    rewrite <- (string_of_list_ascii_of_string s) at 2. f_equal.
    induction (list_ascii_of_string s) as [|c l IH]; [done|].
    cbn [List.map]. by rewrite ascii_N_embedding, IH.
  - unfold Str.bytes. apply Forall_forall. intros b Hb.
    apply list_elem_of_In, in_map_iff in Hb as (c & <- & _). apply ascii_bounded.
Qed.

(** ** The reading of the command line *)

Lemma reads_args (l : list string) :
  RemoveDocument.Reads l
    (filter (λ arg, RemoveDocument.is_flag arg) l)
    (filter (λ arg, negb (RemoveDocument.is_flag arg)) l).
Proof.
  induction l as [|arg l IH]; [constructor|].
  destruct (Str.starts_with "--" arg) eqn:Harg.
  - rewrite filter_cons_True, filter_cons_False;
      [|unfold RemoveDocument.is_flag; rewrite Harg; by intros []
       |unfold RemoveDocument.is_flag; by rewrite Harg].
    apply starts_with_iff in Harg as [rest Hrest].
    by apply (RemoveDocument.reads_flag arg rest).
  - rewrite filter_cons_False, filter_cons_True;
      [|unfold RemoveDocument.is_flag; by rewrite Harg
       |unfold RemoveDocument.is_flag; rewrite Harg; by intros []].
    apply RemoveDocument.reads_param; [|done].
    intros rest Hrest. rewrite Hrest, starts_with_app in Harg. done.
Qed.

Lemma reads_unique (l fs ps : list string) :
  RemoveDocument.Reads l fs ps →
  fs = filter (λ arg, RemoveDocument.is_flag arg) l
  ∧ ps = filter (λ arg, negb (RemoveDocument.is_flag arg)) l.
Proof.
  induction 1 as [|arg rest l fs ps Harg _ [-> ->]|arg l fs ps Harg _ [-> ->]].
  - done.
  - assert (Str.starts_with "--" arg = true) as Hflag
      by (rewrite Harg; apply starts_with_app).
    rewrite filter_cons_True, filter_cons_False;
      [done|unfold RemoveDocument.is_flag; rewrite Hflag; by intros []
      |unfold RemoveDocument.is_flag; by rewrite Hflag].
  - assert (Str.starts_with "--" arg = false) as Hflag.
    { destruct (Str.starts_with "--" arg) eqn:Hs; [|done].
      apply starts_with_iff in Hs as [rest Hrest]. by destruct (Harg rest). }
    rewrite filter_cons_False, filter_cons_True;
      [done|unfold RemoveDocument.is_flag; by rewrite Hflag
      |unfold RemoveDocument.is_flag; rewrite Hflag; by intros []].
Qed.

(** C7. The command line is read as its usage says.  Of the arguments
    that follow the program and the script, those that begin with [--]
    are the flags and the others are the parameters, each kept in the
    order given, and no other reading of the arguments fits that
    description.  The parameters are, in order, client id, client
    secret, user name, password and document id.  The client is
    configured with the base64 form of [client_id:client_secret], from
    which that text is read back, and for production exactly when
    [--dev] is not among the flags. *)
Theorem command_line_arguments (node script : string) (arguments : list string) :
  let argv := node :: script :: arguments in
  RemoveDocument.Reads arguments (RemoveDocument.flags argv) (RemoveDocument.params argv)
  ∧ ∀ fs ps,
      RemoveDocument.Reads arguments fs ps →
      RemoveDocument.flags argv = fs
      ∧ RemoveDocument.params argv = ps
      ∧ RemoveDocument.clientId argv = ps !! 0
      ∧ RemoveDocument.clientSecret argv = ps !! 1
      ∧ RemoveDocument.username argv = ps !! 2
      ∧ RemoveDocument.password argv = ps !! 3
      ∧ RemoveDocument.documentId argv = ps !! 4
      ∧ credentials (RemoveDocument.config argv)
        = Base64.encode
            (default "undefined" (ps !! 0) +:+ ":" +:+
             default "undefined" (ps !! 1))
      ∧ Base64.decode (credentials (RemoveDocument.config argv))
        = Some (default "undefined" (ps !! 0) +:+ ":" +:+
                default "undefined" (ps !! 1))
      ∧ (production (RemoveDocument.config argv) = true ↔ "--dev" ∉ fs)
      ∧ (production (RemoveDocument.config argv) = true ↔ "--dev" ∉ arguments).
Proof.
  intros argv.
  assert (RemoveDocument.args argv = arguments) as Hargs by reflexivity.
  split; [apply reads_args|].
  intros fs ps [-> ->]%reads_unique. rewrite <- Hargs.
  fold (RemoveDocument.flags argv) (RemoveDocument.params argv).
  assert (production (RemoveDocument.config argv) = true
          ↔ "--dev" ∉ RemoveDocument.flags argv) as Hdev.
  { cbn [production RemoveDocument.config]. rewrite negb_true_iff, <- not_true_iff_false.
    unfold RemoveDocument.dev. by rewrite includes_elem_of. }
  split_and!; try reflexivity.
  - apply decode_encode.
  - exact Hdev.
  - rewrite Hdev. unfold RemoveDocument.flags. rewrite list_elem_of_filter.
    split; [intros Hno Hin; by apply Hno|intros Hno [_ Hin]; by apply Hno].
Qed.

End Client.

(** ** The properties at work on the sample environment *)

Lemma response_normalizer_cases_witness :
  ((200 ≤ 200 ≤ 299)%Z
   ∧ Sample.parse (received ["{"; "}"]) = Some "{}"
   ∧ settle (write "" (wrapped Sample.parse Sample.options caller caller))
       (Responded 200 ["{"; "}"]) []
     = [Invoked None (Some "{}")])
  ∧ (¬ (200 ≤ 404 ≤ 299)%Z
     ∧ settle (write "" (wrapped Sample.parse Sample.options caller caller))
         (Responded 404 ["not "; "found"]) []
       = [Invoked
            (Some (ApiErr {| statusCode := Some 404%Z; message := RawText "not found" |}))
            None]).
Proof.
  destruct (response_normalizer_cases Sample.parse Sample.options "" [])
    as (Hok & Hbad & _).
  assert (200 ≤ 200 ≤ 299)%Z as Hin by lia.
  assert (¬ (200 ≤ 404 ≤ 299)%Z) as Hout by lia.
  assert (Sample.parse (received ["{"; "}"]) = Some "{}") as Hparse by reflexivity.
  exact (conj (conj Hin (conj Hparse (Hok 200%Z ["{"; "}"] "{}" Hin Hparse)))
           (conj Hout (Hbad 404%Z ["not "; "found"] Hout))).
Defined.



Lemma command_line_arguments_witness :
  let arguments := ["cid"; "--dev"; "secret"; "u@x.com"; "p"; "doc1"] in
  let argv := "node" :: "remove-document" :: arguments in
  RemoveDocument.Reads arguments ["--dev"] ["cid"; "secret"; "u@x.com"; "p"; "doc1"]
  ∧ RemoveDocument.params argv = ["cid"; "secret"; "u@x.com"; "p"; "doc1"]
  ∧ RemoveDocument.username argv = Some "u@x.com"
  ∧ credentials (RemoveDocument.config argv) = "Y2lkOnNlY3JldA=="
  ∧ Base64.decode (credentials (RemoveDocument.config argv)) = Some "cid:secret".
Proof.
  intros arguments argv.
  assert (RemoveDocument.Reads arguments
            ["--dev"] ["cid"; "secret"; "u@x.com"; "p"; "doc1"]) as Hreads.
  { apply RemoveDocument.reads_param; [discriminate|].
    apply (RemoveDocument.reads_flag "--dev" "dev"); [reflexivity|].
    repeat (apply RemoveDocument.reads_param; [discriminate|]).
    apply RemoveDocument.reads_none. }
  destruct (proj2 (command_line_arguments "node" "remove-document" arguments) _ _ Hreads)
    as (_ & Hparams & _ & _ & Huser & _ & _ & Hcred & Hback & _).
  exact (conj Hreads (conj Hparams (conj Huser (conj Hcred Hback)))).
Defined.


Lemma only_first_percent40_restored_witness :
  (2 ≤ Str.occurrences "%40"
         (QS.stringify (OAuth2Payload.requestToken_dataCopy Sample.two_addresses)))%nat
  ∧ ∃ sent,
      List.map req_body
        (requests
           (emitted []
              (OAuth2_requestToken Sample.parse Sample.settings Sample.host
                 Sample.sandbox (Sample.network []) Sample.two_addresses caller [])))
      = [sent]
      ∧ first_restored
          (QS.stringify (OAuth2Payload.requestToken_dataCopy Sample.two_addresses)) sent
      ∧ (1 ≤ Str.occurrences "%40" sent)%nat.
Proof.
  assert (2 ≤ Str.occurrences "%40"
                (QS.stringify (OAuth2Payload.requestToken_dataCopy Sample.two_addresses)))%nat
    as Htwo by (vm_compute; lia).
  split; [exact Htwo|].
  exact (proj1 (only_first_percent40_restored Sample.parse Sample.settings Sample.host
                  Sample.sandbox (Sample.network []) Sample.two_addresses []) Htwo).
Defined.

Lemma create_with_email_verification_witness :
  let data :=
    {| email := JSString "a@b.c"; password := JSString "secret";
       first_name := JSUndefined; last_name := JSUndefined; number := JSUndefined;
       options := Some {| verifyEmail := JSBoolean true; startTrial := JSUndefined |} |} in
  let network := Sample.network [Responded 200 ["{}"]; Responded 500 ["oops"]] in
  wants_verification data = true
  ∧ emitted []
      (User_create Sample.parse Sample.settings Sample.host Sample.sandbox network
         data caller [])
    = [Sent (User_create_request Sample.settings Sample.host Sample.sandbox data);
       Sent (User_verifyEmail_request Sample.settings Sample.host Sample.sandbox
               (JSString "a@b.c"));
       Invoked (Some (ApiErr {| statusCode := Some 500%Z; message := RawText "oops" |}))
         None].
Proof.
  intros data network.
  assert (wants_verification data = true) as Hv by reflexivity.
  split; [exact Hv|].
  exact (proj1 (create_with_email_verification Sample.parse Sample.settings Sample.host
                  Sample.sandbox network data [] Hv)).
Defined.

(** C1, as the specification words it, fails: the body that goes out for
    [{username: "u@x.com", password: "p"}] is not the plain form
    encoding, in which the [@] would read [%40]. *)
Lemma requestToken_scenario_counterexample :
  List.map req_body
    (requests
       (emitted []
          (OAuth2_requestToken Sample.parse Sample.settings Sample.host Sample.sandbox
             (Sample.network []) Sample.token_payload caller [])))
  ≠ ["grant_type=password&username=u%40x.com&password=p"].
Proof. vm_compute. intros Heq. discriminate Heq. Qed.

(** ** Sample runs *)

Example requestToken_body_sample :
  OAuth2Payload.dataStringified
    (OAuth2Payload.requestToken_dataCopy
       [("username", JSString "u@x.com"); ("password", JSString "p")])
  = "grant_type=password&username=u@x.com&password=p".
Proof. reflexivity. Qed.

Example refreshToken_body_sample :
  OAuth2Payload.dataStringified
    (OAuth2Payload.refreshToken_dataCopy
       [("refresh_token", JSString "a b"); ("7", JSNumber 60);
        ("grant_type", JSString "password"); ("2", JSBoolean true)])
  = "2=true&7=60&refresh_token=a%20b&grant_type=refresh_token".
Proof. reflexivity. Qed.

Example base64_sample : Base64.encode "cid:secret" = "Y2lkOnNlY3JldA==".
Proof. reflexivity. Qed.

Example base64_padding :
  List.map Base64.encode [""; "f"; "fo"; "foo"; "foob"; "fooba"; "foobar"]
  = [""; "Zg=="; "Zm8="; "Zm9v"; "Zm9vYg=="; "Zm9vYmE="; "Zm9vYmFy"].
Proof. reflexivity. Qed.

Example cli_sample :
  RemoveDocument.config
    ["node"; "bin/remove-document"; "--dev"; "cid"; "secret"; "u@x.com"; "p"; "doc1"]
  = {| credentials := "Y2lkOnNlY3JldA=="; production := false |}.
Proof. reflexivity. Qed.

Example json_sample :
  String.length
    (Json.stringify [("skip_30day_trial", JSNumber 1); ("email", JSString "a@b.c");
                     ("password", JSString "x"); ("first_name", JSUndefined)])
  = 53%nat.
Proof. reflexivity. Qed.

Example two_addresses_body :
  OAuth2Payload.dataStringified (OAuth2Payload.requestToken_dataCopy Sample.two_addresses)
  = "grant_type=password&username=a@b.c&password=p%40ss".
Proof. reflexivity. Qed.

Example override_body :
  OAuth2Payload.dataStringified (OAuth2Payload.requestToken_dataCopy Sample.with_grant_type)
  = "grant_type=authorization_code&code=xyz"
  ∧ OAuth2Payload.dataStringified (OAuth2Payload.refreshToken_dataCopy Sample.with_grant_type)
    = "grant_type=refresh_token&code=xyz".
Proof. split; reflexivity. Qed.

Example failed_lookup_run :
  emitted []
    (OAuth2_verify Sample.parse Sample.settings Sample.host Sample.sandbox
       (Sample.network []) "tok" caller [])
  = [Sent (OAuth2_verify_request Sample.settings Sample.host Sample.sandbox "tok");
     Invoked (Some (ApiErr {| statusCode := None; message := RawText "ENOTFOUND" |})) None].
Proof. reflexivity. Qed.

Example flags_sample :
  RemoveDocument.flags ["node"; "remove-document"; "a"; "--dev"; "b"; "--cancel-invites"; "-x"]
  = ["--dev"; "--cancel-invites"]
  ∧ RemoveDocument.params ["node"; "remove-document"; "a"; "--dev"; "b"; "--cancel-invites"; "-x"]
    = ["a"; "b"; "-x"].
Proof. split; reflexivity. Qed.

(** ** The further properties at work on the sample environment *)

Lemma escape_injective_witness :
  QueryString.escape "u@x.com" = QueryString.escape "u@x.com" ∧ "u@x.com" = "u@x.com".
Proof.
  assert (QueryString.escape "u@x.com" = QueryString.escape "u@x.com") as Heq
    by reflexivity.
  exact (conj Heq (escape_injective "u@x.com" "u@x.com" Heq)).
Defined.

Lemma token_payload_passed_through_witness :
  Obj.wf Sample.token_payload
  ∧ "username" ≠ "grant_type"
  ∧ "username" ≠ "__proto__"
  ∧ Obj.get "username" (OAuth2Payload.requestToken_dataCopy Sample.token_payload)
    = Some (JSString "u@x.com")
  ∧ Obj.get "username" (OAuth2Payload.refreshToken_dataCopy Sample.token_payload)
    = Some (JSString "u@x.com").
Proof.
  assert (Obj.wf Sample.token_payload) as Hwf
    by (unfold Obj.wf; apply (bool_decide_unpack _); vm_compute; exact I).
  assert ("username" ≠ "grant_type") as Hname by discriminate.
  assert ("username" ≠ "__proto__") as Hplain by discriminate.
  destruct (token_payload_passed_through Sample.token_payload "username" Hwf Hname Hplain)
    as (Hrequest & Hrefresh & _).
  exact (conj Hwf (conj Hname (conj Hplain (conj Hrequest Hrefresh)))).
Defined.

Lemma refreshToken_appends_grant_type_witness :
  Obj.wf Sample.refresh_payload
  ∧ Obj.ordered Sample.refresh_payload = true
  ∧ Obj.get "grant_type" Sample.refresh_payload = None
  ∧ Obj.get "__proto__" Sample.refresh_payload = None
  ∧ QS.fields (OAuth2Payload.refreshToken_dataCopy Sample.refresh_payload)
    = ["refresh_token=r3fr3sh"; "scope=user%20info"; "grant_type=refresh_token"].
Proof.
  assert (Obj.wf Sample.refresh_payload) as Hwf
    by (unfold Obj.wf; apply (bool_decide_unpack _); vm_compute; exact I).
  assert (Obj.ordered Sample.refresh_payload = true) as Hord by reflexivity.
  assert (Obj.get "grant_type" Sample.refresh_payload = None) as Hnone by reflexivity.
  assert (Obj.get "__proto__" Sample.refresh_payload = None) as Hplain by reflexivity.
  exact (conj Hwf (conj Hord (conj Hnone (conj Hplain
           (proj2 (proj2 (refreshToken_appends_grant_type Sample.refresh_payload
                            Hwf Hord Hnone Hplain))))))).
Defined.

Lemma requestToken_prepends_grant_type_witness :
  Obj.wf Sample.token_payload
  ∧ Forall (λ kv, Obj.array_index kv.1 = None) Sample.token_payload
  ∧ Obj.get "grant_type" Sample.token_payload = None
  ∧ Obj.get "__proto__" Sample.token_payload = None
  ∧ QS.fields (OAuth2Payload.requestToken_dataCopy Sample.token_payload)
    = ["grant_type=password"; "username=u%40x.com"; "password=p"].
Proof.
  assert (Obj.wf Sample.token_payload) as Hwf
    by (unfold Obj.wf; apply (bool_decide_unpack _); vm_compute; exact I).
  assert (Forall (λ kv, Obj.array_index kv.1 = None) Sample.token_payload) as Hindex
    by (repeat constructor).
  assert (Obj.get "grant_type" Sample.token_payload = None) as Hnone by reflexivity.
  assert (Obj.get "__proto__" Sample.token_payload = None) as Hplain by reflexivity.
  exact (conj Hwf (conj Hindex (conj Hnone (conj Hplain
           (proj2 (requestToken_prepends_grant_type Sample.token_payload
                     Hwf Hindex Hnone Hplain)))))).
Defined.

Lemma create_without_verification_witness :
  let data :=
    {| email := JSString "a@b.c"; password := JSString "secret";
       first_name := JSString "Ada"; last_name := JSUndefined; number := JSUndefined;
       options := None |} in
  options data = None
  ∧ emitted []
      (User_create Sample.parse Sample.settings Sample.host Sample.sandbox
         (Sample.network [Responded 200 ["{}"]]) data caller [])
    = [Sent (User_create_request Sample.settings Sample.host Sample.sandbox data);
       Invoked None (Some "{}")].
Proof.
  intros data. split; [reflexivity|].
  exact (create_without_verification Sample.parse Sample.settings Sample.host
           Sample.sandbox (Sample.network [Responded 200 ["{}"]]) data [] I).
Defined.

Lemma flag_position_irrelevant_witness :
  Str.starts_with "--" "--dev" = true
  ∧ RemoveDocument.params ["node"; "remove-document"; "cid"; "--dev"; "secret"]
    = ["cid"; "secret"]
  ∧ credentials
      (RemoveDocument.config ["node"; "remove-document"; "cid"; "--dev"; "secret"])
    = "Y2lkOnNlY3JldA==".
Proof.
  assert (Str.starts_with "--" "--dev" = true) as Hflag by reflexivity.
  exact (conj Hflag
           (flag_position_irrelevant "node" "remove-document" "--dev" ["cid"] ["secret"]
              Hflag)).
Defined.

Lemma missing_parameters_not_refused_witness :
  Forall (λ arg, Str.starts_with "--" arg = true)
    (RemoveDocument.args ["node"; "remove-document"; "--dev"])
  ∧ credentials (RemoveDocument.config ["node"; "remove-document"; "--dev"])
    = Base64.encode "undefined:undefined".
Proof.
  assert (Forall (λ arg, Str.starts_with "--" arg = true)
            (RemoveDocument.args ["node"; "remove-document"; "--dev"])) as Hall
    by (repeat constructor).
  exact (conj Hall
           (proj1 (proj2 (missing_parameters_not_refused
                            ["node"; "remove-document"; "--dev"] Hall)))).
Defined.

Example control_characters_escaped :
  Json.quote (String "010"%char "a")
  = String Json.dquote (String Json.backslash (String "n" (String "a" (String Json.dquote "")))).
Proof. reflexivity. Qed.

Example reserved_characters_escaped :
  QS.stringify [("a&b", JSString "c=d"); ("e", JSString "f g")] = "a%26b=c%3Dd&e=f%20g".
Proof. reflexivity. Qed.

Example proto_not_copied :
  OAuth2Payload.dataStringified
    (OAuth2Payload.requestToken_dataCopy
       [("__proto__", JSString "x"); ("username", JSString "u")])
  = "grant_type=password&username=u"
  ∧ OAuth2Payload.dataStringified
      (OAuth2Payload.refreshToken_dataCopy
         [("__proto__", JSString "x"); ("username", JSString "u")])
    = "username=u&grant_type=refresh_token".
Proof. split; reflexivity. Qed.

Example body_fields_sample :
  Str.split "&" (OAuth2Payload.dataStringified
                   (OAuth2Payload.refreshToken_dataCopy Sample.with_grant_type))
  = ["grant_type=refresh_token"; "code=xyz"].
Proof. reflexivity. Qed.

Example base64_round_trip :
  List.map Base64.decode ["Zg=="; "Zm8="; "Zm9v"; "Y2lkOnNlY3JldA=="; "Zg="; "Z==="]
  = [Some "f"; Some "fo"; Some "foo"; Some "cid:secret"; None; None].
Proof. reflexivity. Qed.
